(** * office_visits_bot: calendar, attendance store and reports

    A shallow embedding of [calendar_data.py], [database.py] and
    [report_generator.py], together with the part of Python's [datetime]
    the three modules rely on, and the properties of the attendance
    tracker proved over it. *)

From Stdlib Require Import ZArith Lia String Ascii List Bool SpecFloat.
From stdpp Require Import base option list gmap strings sorting.

Open Scope Z_scope.

(** ** Exceptions

    Python code either returns or raises.  [Timeout] is only produced by
    the fuel-bounded rendering of a [while] loop and is shown never to
    escape from the functions of the program. *)

Inductive exn : Type :=
| ValueError
| OverflowError
| IndexError
| KeyError
| ZeroDivisionError.

Inductive result (A : Type) : Type :=
| Ok (a : A)
| Raise (e : exn)
| Timeout.

Arguments Ok {A} a.
Arguments Raise {A} e.
Arguments Timeout {A}.

#[global] Instance result_ret : MRet result := fun A a => Ok a.

#[global] Instance result_bind : MBind result := fun A B k r =>
  match r with
  | Ok a => k a
  | Raise e => Raise e
  | Timeout => Timeout
  end.

(** [for x in l: s = body(s, x)] with early exit on an exception. *)
Fixpoint foldM {A S} (body : S -> A -> result S) (s : S) (l : list A)
  : result S :=
  match l with
  | [] => Ok s
  | x :: l' => s' ← body s x; foldM body s' l'
  end.

(** [range(n)] *)
Definition range (n : Z) : list Z := seqZ 0 n.

(** [l[i]]: a negative index counts from the end, an index outside the
    list raises. *)
Definition getitem {A} (l : list A) (i : Z) : result A :=
  let j := if i <? 0 then i + Z.of_nat (length l) else i in
  if j <? 0 then Raise IndexError
  else match l !! Z.to_nat j with
       | Some x => Ok x
       | None => Raise IndexError
       end.

(** * Python's [datetime]

    Every [datetime] handled by the three modules is only observed through
    [.date()], [.weekday()], [.isocalendar()], [strftime] with date
    directives, day-granular [timedelta] arithmetic and comparisons of
    values that carry the same time of day, so a value is represented by
    its calendar date.  The arithmetic is that of CPython's [_pydatetime]. *)

Module Py.

Definition MINYEAR : Z := 1.
Definition MAXYEAR : Z := 9999.
Definition MAXORDINAL : Z := 3652059.

Record date : Type := mkdate { year : Z; month : Z; day : Z }.

#[global] Instance date_eq_dec : EqDecision date.
Proof. solve_decision. Defined.

#[global] Instance date_countable : Countable date.
Proof.
  refine (inj_countable' (fun d => (year d, month d, day d))
                         (fun t => mkdate t.1.1 t.1.2 t.2) _).
  intros []; reflexivity.
Defined.

Definition is_leap (y : Z) : bool :=
  (y mod 4 =? 0) && (negb (y mod 100 =? 0) || (y mod 400 =? 0)).

Definition days_before_year (y : Z) : Z :=
  let y := y - 1 in
  y * 365 + y / 4 - y / 100 + y / 400.

(** [_DAYS_IN_MONTH] and [_DAYS_BEFORE_MONTH], indexed from 1. *)
Definition DAYS_IN_MONTH (m : Z) : Z :=
  match m with
  | 1 => 31 | 2 => 28 | 3 => 31 | 4 => 30 | 5 => 31 | 6 => 30
  | 7 => 31 | 8 => 31 | 9 => 30 | 10 => 31 | 11 => 30 | 12 => 31
  | _ => -1
  end.

Definition DAYS_BEFORE_MONTH (m : Z) : Z :=
  match m with
  | 1 => 0 | 2 => 31 | 3 => 59 | 4 => 90 | 5 => 120 | 6 => 151
  | 7 => 181 | 8 => 212 | 9 => 243 | 10 => 273 | 11 => 304 | 12 => 334
  | _ => -1
  end.

Definition days_in_month (y m : Z) : Z :=
  if (m =? 2) && is_leap y then 29 else DAYS_IN_MONTH m.

Definition days_before_month (y m : Z) : Z :=
  DAYS_BEFORE_MONTH m + (if (2 <? m) && is_leap y then 1 else 0).

Definition ymd2ord (y m d : Z) : Z :=
  days_before_year y + days_before_month y m + d.

Definition DI400Y : Z := 146097.
Definition DI100Y : Z := 36524.
Definition DI4Y : Z := 1461.

Definition ord2ymd (n : Z) : date :=
  let n := n - 1 in
  let n400 := n / DI400Y in
  let n := n mod DI400Y in
  let y := n400 * 400 + 1 in
  let n100 := n / DI100Y in
  let n := n mod DI100Y in
  let n4 := n / DI4Y in
  let n := n mod DI4Y in
  let n1 := n / 365 in
  let n := n mod 365 in
  let y := y + n100 * 100 + n4 * 4 + n1 in
  if (n1 =? 4) || (n100 =? 4) then mkdate (y - 1) 12 31
  else
    let leapyear := (n1 =? 3) && (negb (n4 =? 24) || (n100 =? 3)) in
    let m := Z.shiftr (n + 50) 5 in
    let preceding :=
      DAYS_BEFORE_MONTH m + (if (2 <? m) && leapyear then 1 else 0) in
    if n <? preceding then
      let m := m - 1 in
      let preceding :=
        preceding - (DAYS_IN_MONTH m + (if (m =? 2) && leapyear then 1 else 0))
      in
      mkdate y m (n - preceding + 1)
    else mkdate y m (n - preceding + 1).

(** [datetime(year, month, day)]: the constructor checks its fields. *)
Definition datetime (y m d : Z) : result date :=
  if negb ((MINYEAR <=? y) && (y <=? MAXYEAR)) then Raise ValueError
  else if negb ((1 <=? m) && (m <=? 12)) then Raise ValueError
  else if negb ((1 <=? d) && (d <=? days_in_month y m)) then Raise ValueError
  else Ok (mkdate y m d).

Definition toordinal (d : date) : Z := ymd2ord (year d) (month d) (day d).

Definition fromordinal (n : Z) : date := ord2ymd n.

(** [d + timedelta(days=k)] *)
Definition add_days (d : date) (k : Z) : result date :=
  let o := toordinal d + k in
  if (0 <? o) && (o <=? MAXORDINAL) then Ok (fromordinal o)
  else Raise OverflowError.

(** [d - timedelta(days=k)] *)
Definition sub_days (d : date) (k : Z) : result date := add_days d (- k).

(** [a - b] on two datetimes carrying the same time of day, [.days]. *)
Definition diff_days (a b : date) : Z := toordinal a - toordinal b.

(** Comparison of two dates: by year, then month, then day. *)
Definition cmp (a b : date) : comparison :=
  match year a ?= year b with
  | Eq => match month a ?= month b with
          | Eq => day a ?= day b
          | c => c
          end
  | c => c
  end.

Definition leb (a b : date) : bool :=
  match cmp a b with Gt => false | _ => true end.

Definition gtb (a b : date) : bool :=
  match cmp a b with Gt => true | _ => false end.

(** [d.weekday()]: Monday is 0. *)
Definition weekday (d : date) : Z := (toordinal d + 6) mod 7.

Definition isoweek1monday (y : Z) : Z :=
  let THURSDAY := 3 in
  let firstday := ymd2ord y 1 1 in
  let firstweekday := (firstday + 6) mod 7 in
  let week1monday := firstday - firstweekday in
  if THURSDAY <? firstweekday then week1monday + 7 else week1monday.

(** [d.isocalendar()]: (ISO year, ISO week, ISO weekday). *)
Definition isocalendar (d : date) : Z * Z * Z :=
  let y := year d in
  let week1monday := isoweek1monday y in
  let today := ymd2ord (year d) (month d) (day d) in
  let week := (today - week1monday) / 7 in
  let wd := (today - week1monday) mod 7 in
  if week <? 0 then
    let y := y - 1 in
    let week1monday := isoweek1monday y in
    let week := (today - week1monday) / 7 in
    let wd := (today - week1monday) mod 7 in
    (y, week + 1, wd + 1)
  else if 52 <=? week then
    if isoweek1monday (y + 1) <=? today then (y + 1, 0 + 1, wd + 1)
    else (y, week + 1, wd + 1)
  else (y, week + 1, wd + 1).

(** *** Text

    Decimal rendering of integers, as [str(int)] and the [%d]-like
    directives produce it. *)

Definition digit_char (n : Z) : ascii :=
  ascii_of_N (48 + Z.to_N (n mod 10)).

Fixpoint digits (fuel : nat) (n : Z) (acc : string) : string :=
  match fuel with
  | O => acc
  | S fuel' =>
      let acc' := String (digit_char n) acc in
      if n <? 10 then acc' else digits fuel' (n / 10) acc'
  end.

(** [str(n)] for an integer. *)
Definition str (n : Z) : string :=
  if n <? 0 then String "-" (digits (S (Z.to_nat (Z.log2 (- n)))) (- n) "")
  else digits (S (Z.to_nat (Z.log2 n))) n "".

(** Zero-padded fields of [strftime]: [%d], [%m] (two digits) and [%Y]
    (four digits). *)
Definition pad2 (n : Z) : string :=
  String (digit_char (n / 10)) (String (digit_char n) "").

Definition pad4 (n : Z) : string :=
  String (digit_char (n / 1000)) (String (digit_char (n / 100))
    (String (digit_char (n / 10)) (String (digit_char n) ""))).

(** [d.strftime("%Y-%m-%d")] *)
Definition strftime_Ymd (d : date) : string :=
  (pad4 (year d) ++ "-" ++ pad2 (month d) ++ "-" ++ pad2 (day d))%string.

(** [d.strftime("%d.%m")] *)
Definition strftime_dm (d : date) : string :=
  (pad2 (day d) ++ "." ++ pad2 (month d))%string.

Definition digit_val (c : ascii) : option Z :=
  let n := Z.of_N (N_of_ascii c) in
  if (48 <=? n) && (n <=? 57) then Some (n - 48) else None.

Fixpoint number (s : list ascii) (acc : Z) : option Z :=
  match s with
  | [] => Some acc
  | c :: s' =>
      match digit_val c with
      | Some v => number s' (10 * acc + v)
      | None => None
      end
  end.

(** [datetime.strptime(s, "%Y-%m-%d").date()] on the ten-character form
    [YYYY-MM-DD], the only form the calendar tables contain; any other
    text, and any text that does not name a date, raises [ValueError]. *)
Definition strptime_Ymd (s : string) : result date :=
  match list_ascii_of_string s with
  | [y1; y2; y3; y4; "-"%char; m1; m2; "-"%char; d1; d2] =>
      match number [y1; y2; y3; y4] 0, number [m1; m2] 0, number [d1; d2] 0 with
      | Some y, Some m, Some d => datetime y m d
      | _, _, _ => Raise ValueError
      end
  | _ => Raise ValueError
  end.

End Py.

(** * [calendar_data.py] *)

Module calendar_data.

Import Py.

Definition HOLIDAYS_2026 : list string :=
  [ "2026-01-01"; "2026-01-02"; "2026-01-03"; "2026-01-04";
    "2026-01-05"; "2026-01-06"; "2026-01-07"; "2026-01-08";
    "2026-01-09";
    "2026-02-23";
    "2026-03-08";
    "2026-05-01";
    "2026-05-09";
    "2026-06-12";
    "2026-11-04" ]%string.

Definition SHORTENED_DAYS_2026 : list string :=
  [ "2026-02-20"; "2026-03-07"; "2026-04-30"; "2026-05-08";
    "2026-06-11"; "2026-11-03"; "2026-12-31" ]%string.

Definition TRANSFERRED_HOLIDAYS_2026 : list string :=
  [ "2026-05-11" ]%string.

Definition get_holidays : result (gset date) :=
  foldM (fun (holidays : gset date) date_str =>
           d ← strptime_Ymd date_str;
           Ok (holidays ∪ {[ d ]}))
        ∅ (HOLIDAYS_2026 ++ TRANSFERRED_HOLIDAYS_2026).

Definition is_working_day (date : date) : result bool :=
  holidays ← get_holidays;
  if bool_decide (date ∈ holidays) then Ok false
  else if bool_decide (weekday date ∈ [5; 6]) then Ok false
  else Ok true.

Definition get_work_week_dates (date : date) : result (list Py.date) :=
  monday ← sub_days date (weekday date);
  foldM (fun work_days i =>
           current_day ← add_days monday i;
           w ← is_working_day current_day;
           Ok (if w : bool then work_days ++ [current_day] else work_days))
        [] (range 7).

Definition get_week_number (date : date) : Z := (isocalendar date).1.2.

(** The [while current <= last_day] loop of [get_month_working_days];
    [fuel] bounds the number of tests of the condition. *)
Fixpoint month_loop (fuel : nat) (last_day : date)
    (work_days : list date) (current : date) : result (list date) :=
  match fuel with
  | O => Timeout
  | S fuel' =>
      if leb current last_day then
        w ← is_working_day current;
        let work_days := if w : bool then work_days ++ [current] else work_days in
        current ← add_days current 1;
        month_loop fuel' last_day work_days current
      else Ok work_days
  end.

(** The loop's variant, the number of days from [current] to [last_day],
    bounds the tests of its condition. *)
Definition month_fuel (first_day last_day : date) : nat :=
  S (Z.to_nat (diff_days last_day first_day + 1)).

Definition get_month_working_days (year month : Z) : result (list date) :=
  first_day ← datetime year month 1;
  last_day ← (if month =? 12
              then d ← datetime (year + 1) 1 1; sub_days d 1
              else d ← datetime year (month + 1) 1; sub_days d 1);
  month_loop (month_fuel first_day last_day) last_day [] first_day.

Definition months_ru : list string :=
  [ "января"; "февраля"; "марта"; "апреля"; "мая"; "июня";
    "июля"; "августа"; "сентября"; "октября"; "ноября"; "декабря" ]%string.

Definition weekdays_ru : list string :=
  [ "Понедельник"; "Вторник"; "Среда"; "Четверг";
    "Пятница"; "Суббота"; "Воскресенье" ]%string.

Definition format_date_ru (date : date) : result string :=
  wd ← getitem weekdays_ru (weekday date);
  mn ← getitem months_ru (month date - 1);
  Ok (wd ++ ", " ++ str (day date) ++ " " ++ mn ++ " " ++ str (year date))%string.

End calendar_data.


(** * [database.py]

    The two tables of the SQLite file.  A table is the list of its rows in
    insertion order.  The surrogate key [id] of [office_visits] is never
    read by the program and is left out; [CURRENT_TIMESTAMP] is an input
    of the statements that use it. *)

Module database.

Import Py.

Record user : Type := mkuser {
  u_user_id : Z;
  username : option string;
  first_name : option string;
  last_name : option string;
  u_created_at : string
}.

Record visit : Type := mkvisit {
  user_id : Z;
  visit_date : string;
  was_in_office : bool;
  note : option string;
  created_at : string
}.

Record Database : Type := mkdb {
  users : list user;
  office_visits : list visit
}.

(** [init_db] on a fresh file: both tables exist and are empty. *)
Definition init_db : Database := mkdb [] [].

(** [INSERT INTO users ... ON CONFLICT(user_id) DO UPDATE SET ...] *)
Definition add_or_update_user (db : Database) (now : string) (uid : Z)
    (uname fname lname : option string) : Database :=
  if existsb (fun r => u_user_id r =? uid) (users db) then
    mkdb ((fun r => if u_user_id r =? uid
                     then mkuser uid uname fname lname (u_created_at r)
                     else r) <$> users db)
         (office_visits db)
  else
    mkdb (users db ++ [mkuser uid uname fname lname now]) (office_visits db).

(** [WHERE user_id = ? AND visit_date = ?] *)
Definition key_is (uid : Z) (date_str : string) (r : visit) : bool :=
  (user_id r =? uid) && String.eqb (visit_date r) date_str.

(** [INSERT INTO office_visits ... ON CONFLICT(user_id, visit_date)
    DO UPDATE SET ...] *)
Definition mark_visit (db : Database) (now : string) (uid : Z) (date : date)
    (in_office : bool) (note : option string) : Database :=
  let date_str := strftime_Ymd date in
  if existsb (key_is uid date_str) (office_visits db) then
    mkdb (users db)
         ((fun r => if key_is uid date_str r
                     then mkvisit uid date_str in_office note now
                     else r) <$> office_visits db)
  else
    mkdb (users db)
         (office_visits db ++ [mkvisit uid date_str in_office note now]).

(** [fetchone()] of the select by key: the first matching row, or [None]. *)
Definition get_visit (db : Database) (uid : Z) (date : date) : option visit :=
  let date_str := strftime_Ymd date in
  find (key_is uid date_str) (office_visits db).

(** [ORDER BY visit_date]: text order of the stored strings. *)
Definition by_visit_date (a b : visit) : Prop :=
  String.le (visit_date a) (visit_date b).

#[global] Instance by_visit_date_dec : RelDecision by_visit_date.
Proof. intros a b. unfold by_visit_date. apply _. Defined.

(** [WHERE user_id = ? AND visit_date BETWEEN ? AND ?] *)
Definition in_period (uid : Z) (lo hi : string) (r : visit) : bool :=
  (user_id r =? uid) && String.leb lo (visit_date r)
                     && String.leb (visit_date r) hi.

Definition get_visits_by_period (db : Database) (uid : Z)
    (start_date end_date : date) : list visit :=
  merge_sort by_visit_date
    (filter (fun r => in_period uid (strftime_Ymd start_date)
                                    (strftime_Ymd end_date) r)
            (office_visits db)).

Definition get_month_visits (db : Database) (uid : Z) (year month : Z)
  : result (list visit) :=
  start_date ← datetime year month 1;
  end_date ← (if month =? 12 then datetime (year + 1) 1 1
              else datetime year (month + 1) 1);
  Ok (get_visits_by_period db uid start_date end_date).

Definition get_week_visits (db : Database) (uid : Z) (date : date)
  : result (list visit) :=
  monday ← sub_days date (weekday date);
  sunday ← add_days monday 6;
  Ok (get_visits_by_period db uid monday sunday).

(** [sum(1 for v in visits if v['was_in_office'])] *)
Definition count_in_office (visits : list visit) : Z :=
  Z.of_nat (length (filter (fun v => was_in_office v) visits)).


(** [DELETE FROM office_visits WHERE user_id = ? AND visit_date = ?] *)
Definition delete_visit (db : Database) (uid : Z) (date : date) : Database :=
  let date_str := strftime_Ymd date in
  mkdb (users db)
       (filter (fun r => negb (key_is uid date_str r)) (office_visits db)).

End database.

(** * Floating point

    [int / int], [float * int] and the [.1f] format on binary64 values,
    over the specification of IEEE 754 arithmetic of the standard library.
    The integers converted are list lengths, far below [2^53]. *)

Module PyFloat.

Definition prec : Z := 53.
Definition emax : Z := 1024.

(** [float(n)] *)
Definition of_int (n : Z) : spec_float := binary_normalize prec emax n 0 false.

(** [a / b] on two integers. *)
Definition truediv (a b : Z) : result spec_float :=
  if b =? 0 then Raise ZeroDivisionError
  else Ok (SFdiv prec emax (of_int a) (of_int b)).

(** [x * n] for a float [x] and an integer [n]. *)
Definition mul_int (x : spec_float) (n : Z) : spec_float :=
  SFmul prec emax x (of_int n).

(** The integer nearest to [num / den], ties going to the even one. *)
Definition round_half_even (num den : Z) : Z :=
  let q := num / den in
  let r := num mod den in
  if 2 * r <? den then q
  else if den <? 2 * r then q + 1
  else if Z.even q then q else q + 1.

(** [f"{x:.1f}"]: the decimal with one fractional digit nearest to the
    exact value of [x], ties going to the even digit. *)
Definition format_1f (x : spec_float) : string :=
  match x with
  | S754_zero s => if s then "-0.0" else "0.0"
  | S754_infinity s => if s then "-inf" else "inf"
  | S754_nan => "nan"
  | S754_finite s m e =>
      let tenths :=
        if 0 <=? e then Z.pos m * 10 * 2 ^ e
        else round_half_even (Z.pos m * 10) (2 ^ (- e)) in
      ((if s then "-" else "") ++
       Py.str (tenths / 10) ++ "." ++ Py.str (tenths mod 10))%string
  end.

End PyFloat.

(** * [report_generator.py] *)

Module report_generator.

Import Py calendar_data database.

Definition nl : string := String "010" "".

(** [{v['visit_date']: v for v in visits}]: a later row replaces an
    earlier one under the same key. *)
Definition visits_by_date (visits : list visit) : gmap string visit :=
  foldl (fun d v => <[visit_date v := v]> d) ∅ visits.

(** The grouping loop: [weeks[week_num].append(day)], the list being
    created on the first day of a week. *)
Definition group_by_week (work_days : list date) : gmap Z (list date) :=
  foldl (fun weeks day =>
           let week_num := get_week_number day in
           <[week_num := default [] (weeks !! week_num) ++ [day]]> weeks)
        ∅ work_days.

(** [d[k]] on a dictionary. *)
Definition dict_getitem {V} (d : gmap Z V) (k : Z) : result V :=
  match d !! k with
  | Some v => Ok v
  | None => Raise KeyError
  end.

(** [sorted(weeks.keys())] *)
Definition sorted_keys {V} (d : gmap Z V) : list Z :=
  merge_sort Z.le (elements (dom d)).

Definition month_names : list string :=
  [ "Январь"; "Февраль"; "Март"; "Апрель"; "Май"; "Июнь";
    "Июль"; "Август"; "Сентябрь"; "Октябрь"; "Ноябрь"; "Декабрь" ]%string.

(** One turn of the loop over the days of a week in the text report:
    the running office count and the status lines. *)
Definition text_day (visits_dict : gmap string visit)
    (st : Z * list string) (day : date) : Z * list string :=
  let office_count := st.1 in
  let week_status := st.2 in
  let date_str := strftime_Ymd day in
  let '(office_count, status) :=
    match visits_dict !! date_str with
    | Some visit =>
        if was_in_office visit then (office_count + 1, "🏢"%string)
        else (office_count, "🏠"%string)
    | None => (office_count, "❓"%string)
    end in
  let day_str := strftime_dm day in
  (office_count, week_status ++ [day_str +:+ " " +:+ status]).

(** One turn of the loop over the weeks. *)
Definition text_week (visits_dict : gmap string visit)
    (weeks : gmap Z (list date)) (report : string) (week_num : Z)
  : result string :=
  week_days ← dict_getitem weeks week_num;
  let st := foldl (text_day visits_dict) (0, []) week_days in
  let office_count := st.1 in
  let week_status := st.2 in
  let requirement_met : string := if 1 <=? office_count then "✅" else "⚠️" in
  let report :=
    report +:+ "<b>Неделя " +:+ str week_num +:+ "</b> " +:+ requirement_met +:+ nl in
  let report := report +:+ "  Дней в офисе: " +:+ str office_count +:+ nl in
  let report :=
    foldl (fun report status_line => report +:+ "  " +:+ status_line +:+ nl)
          report week_status in
  Ok (report +:+ nl).

Definition legend : string :=
  "━━━━━━━━━━━━━━━━━━━" +:+ nl +:+
  "🏢 - в офисе" +:+ nl +:+
  "🏠 - удаленно" +:+ nl +:+
  "❓ - не отмечено" +:+ nl +:+
  "✅ - норма выполнена" +:+ nl +:+
  "⚠️ - требуется посещение" +:+ nl.

(** The [if total_work_days > 0:] block of the text report. *)
Definition add_percent (report : string)
    (total_office_days total_work_days : Z) : result string :=
  if 0 <? total_work_days then
    q ← PyFloat.truediv total_office_days total_work_days;
    let office_percent := PyFloat.mul_int q 100 in
    Ok (report +:+ "  • Процент посещений: " +:+
        PyFloat.format_1f office_percent +:+ "%" +:+ nl)
  else Ok report.

Definition generate_text_report (db : Database) (uid : Z) (year month : Z)
  : result string :=
  work_days ← get_month_working_days year month;
  visits ← get_month_visits db uid year month;
  let visits_dict := visits_by_date visits in
  let weeks := group_by_week work_days in
  month_name ← getitem month_names (month - 1);
  let report : string := "📊 <b>Отчет о посещениях офиса</b>" +:+ nl in
  let report := report +:+ "📅 <b>" +:+ month_name +:+ " " +:+ str year +:+ "</b>" +:+ nl +:+ nl in
  let total_work_days := Z.of_nat (length work_days) in
  let total_office_days := count_in_office visits in
  let total_home_days :=
    Z.of_nat (length (filter (fun v => negb (was_in_office v)) visits)) in
  let report := report +:+ "📈 <b>Общая статистика:</b>" +:+ nl in
  let report := report +:+ "  • Всего рабочих дней: " +:+ str total_work_days +:+ nl in
  let report := report +:+ "  • В офисе: " +:+ str total_office_days +:+ " дней" +:+ nl in
  let report := report +:+ "  • Удаленно: " +:+ str total_home_days +:+ " дней" +:+ nl in
  report ← add_percent report total_office_days total_work_days;
  let report := report +:+ nl in
  let report := report +:+ "📋 <b>По неделям:</b>" +:+ nl +:+ nl in
  report ← foldM (text_week visits_dict weeks) report (sorted_keys weeks);
  Ok (report +:+ legend).

(** [s.split(',')[0]]: the text before the first comma. *)
Fixpoint before_comma (s : string) : string :=
  match s with
  | EmptyString => EmptyString
  | String c s' => if Ascii.eqb c "," then EmptyString else String c (before_comma s')
  end.

(** One turn of the loop over the days in [get_current_week_status]. *)
Definition week_day_line (visits_dict : gmap string visit) (today : date)
    (status : string) (day : date) : result string :=
  let date_str := strftime_Ymd day in
  full ← format_date_ru day;
  let day_name := before_comma full in
  let day_date := strftime_dm day in
  let '(icon, status_text) :=
    match visits_dict !! date_str with
    | Some visit =>
        (if was_in_office visit then "🏢" else "🏠",
         if was_in_office visit then "в офисе" else "удаленно")%string
    | None =>
        if gtb day today then ("⏳", "планируется")%string
        else ("❓", "не отмечено")%string
    end in
  Ok (status +:+ icon +:+ " " +:+ day_name +:+ " (" +:+ day_date +:+ ") - " +:+
      status_text +:+ nl).

(** [today] is the value of [datetime.now()]. *)
Definition get_current_week_status (db : Database) (uid : Z) (today : date)
  : result string :=
  week_days ← get_work_week_dates today;
  visits ← get_week_visits db uid today;
  let visits_dict := visits_by_date visits in
  let office_count := count_in_office visits in
  let status :=
    "📅 <b>Текущая неделя (неделя " +:+ str (get_week_number today) +:+
    ")</b>" +:+ nl +:+ nl in
  status ← foldM (week_day_line visits_dict today) status week_days;
  let status := status +:+ nl +:+ "<b>Дней в офисе: " +:+ str office_count +:+ "</b>" +:+ nl in
  if 1 <=? office_count then Ok (status +:+ "✅ <b>Норма выполнена!</b>")
  else Ok (status +:+ "⚠️ <b>Требуется минимум 1 посещение офиса</b>").

End report_generator.

(** * [report_generator.py]: the calendar picture

    [generate_image_report] draws on a PIL canvas and returns its PNG
    encoding.  The picture is represented by the size and background of
    the canvas and the drawing calls made on it, in order; the encoding is
    PIL's.  The three fonts are named by their use, whichever file was
    loaded, and the only thing the code reads back from PIL, the bounding
    box of a text, is a parameter. *)

Module report_image.

Import Py calendar_data database report_generator.

Inductive font : Type := font_title | font_day | font_small.

(** The calls on [draw]: [text(xy, text, fill, font)],
    [rectangle(box, fill, outline, width)] and
    [ellipse(box, fill, outline)]. *)
Inductive draw_op : Type :=
| text (xy : Z * Z) (s : string) (fill : option string) (f : font)
| rectangle (box : Z * Z * Z * Z) (fill outline : string) (width : Z)
| ellipse (box : Z * Z * Z * Z) (fill outline : string).

(** [Image.new('RGB', size, color)] and what was drawn on it. *)
Record image : Type := mkimage {
  img_size : Z * Z;
  img_color : string;
  img_ops : list draw_op
}.



Section picture.

(** [draw.textbbox((0, 0), text, font=font)]: left, top, right, bottom. *)
Variable textbbox : string -> font -> Z * Z * Z * Z.





End picture.

End report_image.

(** * [bot.py]

    The handlers act on the module-level [db] and answer through the
    Telegram API.  A handler is a function of the store and of what was
    sent so far; an exception leaves both as they were when it was raised.
    [today] is the value of [datetime.now()] and [stamp] the value of
    [CURRENT_TIMESTAMP] during the call. *)

Module bot.

Import Py calendar_data database report_generator report_image.

(** [InlineKeyboardMarkup]: rows of buttons, each with its label and its
    [callback_data]. *)
Definition keyboard : Type := list (list (string * string)).

(** The calls on the Telegram objects; [html] stands for
    [parse_mode=ParseMode.HTML]. *)
Inductive action : Type :=
| answer
| reply_text (text : string) (html : bool) (reply_markup : option keyboard)
| edit_message_text (text : string) (html : bool) (reply_markup : option keyboard)
| reply_photo (photo : image) (caption : string)
| delete_message
| log_error.

Record world : Type := mkworld { store : Database; sent : list action }.

Definition handler (A : Type) : Type := world -> world * result A.

#[global] Instance handler_ret : MRet handler := fun A a w => (w, Ok a).

#[global] Instance handler_bind : MBind handler := fun A B k h w =>
  match h w with
  | (w', Ok a) => k a w'
  | (w', Raise e) => (w', Raise e)
  | (w', Timeout) => (w', Timeout)
  end.

Definition send (a : action) : handler unit :=
  fun w => (mkworld (store w) (sent w ++ [a]), Ok tt).

(** A call that reads the store or nothing. *)
Definition call {A} (f : Database -> result A) : handler A :=
  fun w => (w, f (store w)).

(** A call that writes the store. *)
Definition exec (f : Database -> Database) : handler unit :=
  fun w => (mkworld (f (store w)) (sent w), Ok tt).


Definition day_off_text : string :=
  "Сегодня выходной день, отметка не требуется. 😊".

Definition mark_keyboard : keyboard :=
  [[("🏢 Был в офисе", "mark_today_office");
    ("🏠 Работал удаленно", "mark_today_home")]]%string.

Definition week_keyboard : keyboard :=
  [[("✅ Отметить сегодня", "mark_today_menu")]]%string.

Definition start (stamp : string) (user_id : Z) (username : option string)
    (first_name : string) (last_name : option string) : handler unit :=
  _ ← exec (fun db => add_or_update_user db stamp user_id username
                                         (Some first_name) last_name);
  let welcome_text :=
    nl +:+ "👋 Привет, " +:+ first_name +:+ "!" +:+ nl +:+ nl +:+
    "Я помогу тебе отслеживать посещения офиса." +:+ nl +:+ nl +:+
    "📌 <b>Основные команды:</b>" +:+ nl +:+
    "/today - Отметить сегодня" +:+ nl +:+
    "/week - Статус текущей недели" +:+ nl +:+
    "/report - Сформировать отчет" +:+ nl +:+ nl +:+
    "<b>Требования:</b>" +:+ nl +:+
    "Необходимо посещать офис минимум 1 раз в рабочую неделю." +:+ nl +:+ nl +:+
    "Используй кнопки меню для быстрого доступа к функциям." +:+ nl +:+
    "    " in
  let keyboard :=
    [[("✅ Был в офисе сегодня", "mark_today_office");
      ("🏠 Работал удаленно", "mark_today_home")];
     [("📊 Текущая неделя", "show_week");
      ("📈 Отчет за месяц", "show_report")]]%string in
  send (reply_text welcome_text true (Some keyboard)).

Definition today_command (user_id : Z) (today : date) : handler unit :=
  w ← call (fun _ => is_working_day today);
  if negb w then
    full ← call (fun _ => format_date_ru today);
    send (reply_text ("📅 " +:+ full +:+ nl +:+ nl +:+ day_off_text) false None)
  else
    visit ← call (fun db => Ok (get_visit db user_id today));
    let status_text :=
      match visit with
      | Some visit =>
          let status :=
            if was_in_office visit then "в офисе 🏢" else "работал удаленно 🏠" in
          nl +:+ "<b>Текущий статус:</b> " +:+ status
      | None => ""
      end%string in
    full ← call (fun _ => format_date_ru today);
    send (reply_text ("📅 <b>" +:+ full +:+ "</b>" +:+ nl +:+ nl +:+
                      "Где ты сегодня работаешь?" +:+ status_text)
                     true (Some mark_keyboard)).

Definition week_command (user_id : Z) (today : date) : handler unit :=
  status ← call (fun db => get_current_week_status db user_id today);
  send (reply_text status true (Some week_keyboard)).

Definition report_command : handler unit :=
  let keyboard :=
    [[("📊 Текущий месяц", "report_current");
      ("📅 Предыдущий месяц", "report_previous")]]%string in
  send (reply_text "Выбери период для отчета:" false (Some keyboard)).

Section callbacks.

Variable textbbox : string -> font -> Z * Z * Z * Z.



End callbacks.

End bot.

(** * Specification-level definitions

    The predicates and functions the statements below are written
    with: calendar dates, the days of a week and of a month, the
    invariants of the store and the texts of the reports. *)

Module Spec.

Import Py calendar_data database report_generator report_image bot.

(** A calendar date: the fields [datetime] accepts, with no upper bound
    on the year. *)
Definition wf (d : date) : Prop :=
  1 <= year d /\ 1 <= month d <= 12 /\
  1 <= day d <= days_in_month (year d) (month d).

(** A date a [datetime] object can hold. *)
Definition valid (d : date) : Prop := wf d /\ year d <= MAXYEAR.

Definition validb (d : date) : bool :=
  (1 <=? year d) && (year d <=? MAXYEAR) &&
  (1 <=? month d) && (month d <=? 12) &&
  (1 <=? day d) && (day d <=? days_in_month (year d) (month d)).

(** Moving a date by whole 400-year cycles. *)
Definition shift_years (k : Z) (d : date) : date :=
  mkdate (year d + k) (month d) (day d).

(** Bounded universal quantification over consecutive integers. *)
Fixpoint all_from (k : nat) (n : Z) (p : Z -> bool) : bool :=
  match k with
  | O => true
  | S k' => p n && all_from k' (n + 1) p
  end.

(** One 400-year cycle, day by day: [ord2ymd] lands on a calendar date of
    the first 400 years whose ordinal is the one it started from. *)
Definition cycle_day_ok (n : Z) : bool :=
  let d := ord2ymd n in
  validb d && (year d <=? 400) && (toordinal d =? n).

(** The dates of the holiday tables, as dates. *)
Definition holiday_list : list date :=
  map (mkdate 2026 1) (seqZ 1 9) ++
  [ mkdate 2026 2 23; mkdate 2026 3 8; mkdate 2026 5 1; mkdate 2026 5 9;
    mkdate 2026 6 12; mkdate 2026 11 4; mkdate 2026 5 11 ].

Definition is_weekend (d : date) : bool :=
  (weekday d =? 5) || (weekday d =? 6).

Definition is_holiday (d : date) : bool :=
  bool_decide (d ∈ holiday_list).

(** A day off: a Saturday, a Sunday or a date of the holiday tables. *)
Definition day_off (d : date) : bool := is_weekend d || is_holiday d.

(** A working day: any other date. *)
Definition working (d : date) : Prop := day_off d = false.

#[global] Instance working_dec d : Decision (working d).
Proof. unfold working. apply _. Defined.

(** The ordinal of the Monday of the week of [d]. *)
Definition monday_ordinal (d : date) : Z := toordinal d - weekday d.

(** The seven days of the week of [d], Monday first. *)
Definition week_of (d : date) : list date :=
  (fun i => fromordinal (monday_ordinal d + i)) <$> seqZ 0 7.

(** A month [datetime] can walk through: the first day of the following
    month must be representable too. *)
Definition month_ok (y m : Z) : Prop :=
  1 <= y <= MAXYEAR /\ 1 <= m <= 12 /\ ~ (y = MAXYEAR /\ m = 12).

(** The calendar days of a month, from the 1st to the last. *)
Definition month_days (y m : Z) : list date :=
  mkdate y m <$> seqZ 1 (days_in_month y m).

(** The first day of the month after [y]-[m]. *)
Definition next_month (y m : Z) : date :=
  if m =? 12 then mkdate (y + 1) 1 1 else mkdate y (m + 1) 1.

(** The numeric key [YYYYMMDD] of a date. *)
Definition ymd_key (d : date) : Z := year d * 10000 + month d * 100 + day d.

(** The columns of the [UNIQUE(user_id, visit_date)] constraint. *)
Definition key (r : visit) : Z * string := (user_id r, visit_date r).

(** The constraint holds. *)
Definition unique_keys (db : Database) : Prop :=
  NoDup (key <$> office_visits db).

(** Every stored [visit_date] is the ISO text of a date. *)
Definition dated (db : Database) : Prop :=
  Forall (fun r => exists d, valid d /\ visit_date r = strftime_Ymd d)
         (office_visits db).

(** The rows stored under a key. *)
Definition rows_at (db : Database) (uid : Z) (date : date) : list visit :=
  filter (fun r => key_is uid (strftime_Ymd date) r) (office_visits db).

(** The status of a day in a report. *)
Inductive status : Type := IN_OFFICE | REMOTE | UNMARKED | PLANNED.

#[global] Instance status_eq_dec : EqDecision status.
Proof. solve_decision. Defined.

(** The glyph of a status, as the legend of the report gives it. *)
Definition glyph (s : status) : string :=
  match s with
  | IN_OFFICE => "🏢"
  | REMOTE => "🏠"
  | UNMARKED => "❓"
  | PLANNED => "⏳"
  end.

(** The status of a day of the monthly report, read from the store. *)
Definition classify (db : Database) (uid : Z) (day : date) : status :=
  match get_visit db uid day with
  | Some r => if was_in_office r then IN_OFFICE else REMOTE
  | None => UNMARKED
  end.

(** The status of a day of the current week, read from the store: a day
    without a record is planned when it lies after today. *)
Definition classify_week (db : Database) (uid : Z) (today day : date)
  : status :=
  match get_visit db uid day with
  | Some r => if was_in_office r then IN_OFFICE else REMOTE
  | None => if toordinal today <? toordinal day then PLANNED else UNMARKED
  end.

(** The number of days a classification puts in the office. *)
Definition office_count (st : date -> status) (days : list date) : Z :=
  Z.of_nat (length (filter (fun d => st d = IN_OFFICE) days)).

Definition concat_str (l : list string) : string :=
  foldr String.append EmptyString l.

(** The compliance flag of a week with [n] office days. *)
Definition flag (n : Z) : string := if 1 <=? n then "✅" else "⚠️".

(** The block of a week in the text report. *)
Definition week_section (st : date -> status) (wk : Z) (days : list date)
  : string :=
  "<b>Неделя " +:+ str wk +:+ "</b> " +:+ flag (office_count st days) +:+ nl +:+
  "  Дней в офисе: " +:+ str (office_count st days) +:+ nl +:+
  concat_str ((fun d => "  " +:+ strftime_dm d +:+ " " +:+ glyph (st d) +:+ nl)
                <$> days) +:+
  nl.

(** The week numbers of a list of days, in increasing order. *)
Definition week_numbers (days : list date) : list Z :=
  merge_sort Z.le (remove_dups (get_week_number <$> days)).

(** The days of a list that fall in week [wk], in the order of the list. *)
Definition bucket (days : list date) (wk : Z) : list date :=
  filter (fun d => get_week_number d = wk) days.

(** The status the text report reads from its lookup. *)
Definition dict_status (vd : gmap string visit) (day : date) : status :=
  match vd !! strftime_Ymd day with
  | Some v => if was_in_office v then IN_OFFICE else REMOTE
  | None => UNMARKED
  end.


(** The text of [n] tenths. *)
Definition decimal1 (n : Z) : string :=
  str (n / 10) +:+ "." +:+ str (n mod 10).

(** The percentage text of [a] office days out of [b] working days. *)
Definition percent_text (a b : Z) : option string :=
  match PyFloat.truediv a b with
  | Ok q => Some (PyFloat.format_1f (PyFloat.mul_int q 100))
  | _ => None
  end.

Definition percent_ok (b a : Z) : bool :=
  bool_decide (percent_text a b =
               Some (decimal1 (PyFloat.round_half_even (1000 * a) b))).

(** The name of month [m] in the header of the text report. *)
Definition month_name (m : Z) : string :=
  nth (Z.to_nat (m - 1)) month_names EmptyString.

(** The header and the totals of the text report. *)
Definition totals_text (y m work office home : Z) : string :=
  "📊 <b>Отчет о посещениях офиса</b>" +:+ nl +:+
  "📅 <b>" +:+ month_name m +:+ " " +:+ str y +:+ "</b>" +:+ nl +:+ nl +:+
  "📈 <b>Общая статистика:</b>" +:+ nl +:+
  "  • Всего рабочих дней: " +:+ str work +:+ nl +:+
  "  • В офисе: " +:+ str office +:+ " дней" +:+ nl +:+
  "  • Удаленно: " +:+ str home +:+ " дней" +:+ nl.

(** The percentage line showing [n] tenths. *)
Definition percent_line (n : Z) : string :=
  "  • Процент посещений: " +:+ decimal1 n +:+ "%" +:+ nl.

(** The part of the text report about the weeks. *)
Definition weeks_text (st : date -> status) (days : list date) : string :=
  nl +:+ "📋 <b>По неделям:</b>" +:+ nl +:+ nl +:+
  concat_str ((fun wk => week_section st wk (bucket days wk))
                <$> week_numbers days) +:+
  legend.

(** The rows the month query of the store returns. *)
Definition month_rows (db : Database) (uid y m : Z) : list visit :=
  get_visits_by_period db uid (mkdate y m 1) (next_month y m).

(** The wording of a status in the week overview. *)
Definition label (s : status) : string :=
  match s with
  | IN_OFFICE => "в офисе"
  | REMOTE => "удаленно"
  | UNMARKED => "не отмечено"
  | PLANNED => "планируется"
  end.

Definition weekday_name (d : date) : string :=
  nth (Z.to_nat (weekday d)) weekdays_ru EmptyString.

(** The line of a day in the week overview. *)
Definition week_line (st : date -> status) (d : date) : string :=
  glyph (st d) +:+ " " +:+ weekday_name d +:+ " (" +:+ strftime_dm d +:+
  ") - " +:+ label (st d) +:+ nl.

Definition week_header (today : date) : string :=
  "📅 <b>Текущая неделя (неделя " +:+ str (get_week_number today) +:+
  ")</b>" +:+ nl +:+ nl.

(** The verdict on the one-office-day-a-week requirement. *)
Definition verdict (n : Z) : string :=
  if 1 <=? n then "✅ <b>Норма выполнена!</b>"
  else "⚠️ <b>Требуется минимум 1 посещение офиса</b>".

Definition week_footer (n : Z) : string :=
  nl +:+ "<b>Дней в офисе: " +:+ str n +:+ "</b>" +:+ nl +:+ verdict n.

(** The week of [today] lies within the dates [datetime] can hold. *)
Definition week_ok (today : date) : Prop :=
  valid today /\ monday_ordinal today + 6 <= MAXORDINAL.

(** The office records of a user dated on one of the seven days, Monday
    to Sunday, of the week of [today]. *)
Definition week_office_rows (db : Database) (uid : Z) (today : date)
  : list visit :=
  filter (fun r => user_id r = uid /\ was_in_office r = true /\
                   visit_date r ∈ strftime_Ymd <$> week_of today)
         (office_visits db).

Definition week_rows (db : Database) (uid : Z) (today : date) : list visit :=
  get_visits_by_period db uid (fromordinal (monday_ordinal today))
                       (fromordinal (monday_ordinal today + 6)).

(** The status the week overview reads from its lookup. *)
Definition week_dict_status (vd : gmap string visit) (today day : date)
  : status :=
  match vd !! strftime_Ymd day with
  | Some v => if was_in_office v then IN_OFFICE else REMOTE
  | None => if gtb day today then PLANNED else UNMARKED
  end.

(** The holiday and transferred-holiday dates of 2026, by month and day. *)
Definition listed_holiday (d : date) : Prop :=
  (month d = 1 /\ 1 <= day d <= 9) \/
  (month d = 2 /\ day d = 23) \/
  (month d = 3 /\ day d = 8) \/
  (month d = 5 /\ day d = 1) \/
  (month d = 5 /\ day d = 9) \/
  (month d = 5 /\ day d = 11) \/
  (month d = 6 /\ day d = 12) \/
  (month d = 11 /\ day d = 4).

(** Chronological order. *)
Definition before (a b : date) : Prop := cmp a b = Lt.

(** The state of a store the operations of [Database] can reach: the
    uniqueness constraint holds and every date was written by
    [mark_visit]. *)
Definition store_ok (db : Database) : Prop := unique_keys db /\ dated db.

















(** The number of days drawn before the slot at position [p], counted
    from the Monday of the first row. *)
Definition drawn_before (y m p : Z) : Z :=
  Z.min (days_in_month y m) (Z.max 0 (p - weekday (mkdate y m 1))).





End Spec.

(** * Facts about the calendar arithmetic *)

Ltac dlia := Z.to_euclidean_division_equations; lia.

Module PyFacts.

Import Py Spec.

Lemma validb_valid d : validb d = true <-> valid d.
Proof.
  unfold validb, valid, wf. rewrite !andb_true_iff, !Z.leb_le. tauto.
Qed.

Lemma validb_wf d : validb d = true -> wf d.
Proof. intros H. now apply validb_valid in H as [? _]. Qed.

Ltac split_cases H m :=
  first [ destruct H as [H | H];
          [first [subst m | rewrite H] | split_cases H m]
        | first [subst m | rewrite H] ].

Ltac month_cases m :=
  let H := fresh "Hcase" in
  assert (H : m = 1 \/ m = 2 \/ m = 3 \/ m = 4 \/ m = 5 \/ m = 6 \/
              m = 7 \/ m = 8 \/ m = 9 \/ m = 10 \/ m = 11 \/ m = 12) by lia;
  split_cases H m.

Lemma is_leap_shift y q : is_leap (y + 400 * q) = is_leap y.
Proof.
  unfold is_leap.
  replace ((y + 400 * q) mod 4) with (y mod 4) by dlia.
  replace ((y + 400 * q) mod 100) with (y mod 100) by dlia.
  replace ((y + 400 * q) mod 400) with (y mod 400) by dlia.
  reflexivity.
Qed.

Lemma days_before_year_shift y q :
  days_before_year (y + 400 * q) = days_before_year y + DI400Y * q.
Proof. unfold days_before_year, DI400Y; cbv zeta. dlia. Qed.

Lemma days_before_year_step y :
  days_before_year (y + 1) =
  days_before_year y + 365 + (if is_leap y then 1 else 0).
Proof.
  unfold days_before_year, is_leap; cbv zeta.
  destruct (Z.eqb_spec (y mod 4) 0), (Z.eqb_spec (y mod 100) 0),
    (Z.eqb_spec (y mod 400) 0); simpl; dlia.
Qed.

Lemma days_before_year_mono y1 y2 :
  y1 <= y2 -> days_before_year y1 <= days_before_year y2.
Proof. unfold days_before_year; cbv zeta. dlia. Qed.

Lemma days_before_year_nonneg y : 1 <= y -> 0 <= days_before_year y.
Proof. unfold days_before_year; cbv zeta. dlia. Qed.

Lemma days_in_month_shift y m q :
  days_in_month (y + 400 * q) m = days_in_month y m.
Proof. unfold days_in_month. now rewrite is_leap_shift. Qed.

Lemma ymd2ord_shift y m d q :
  ymd2ord (y + 400 * q) m d = ymd2ord y m d + DI400Y * q.
Proof.
  unfold ymd2ord, days_before_month.
  rewrite days_before_year_shift, is_leap_shift. lia.
Qed.

Lemma days_in_month_bounds y m : 1 <= m <= 12 -> 28 <= days_in_month y m <= 31.
Proof.
  intros Hm. unfold days_in_month.
  month_cases m; destruct (is_leap y); simpl; lia.
Qed.

(** The days before a month and the days of the month make up the days
    before the next one. *)
Lemma days_before_month_step y m :
  1 <= m < 12 ->
  days_before_month y (m + 1) = days_before_month y m + days_in_month y m.
Proof.
  intros Hm. unfold days_before_month, days_in_month.
  month_cases m; try lia; destruct (is_leap y); reflexivity.
Qed.

Lemma days_before_month_december y :
  days_before_month y 12 + days_in_month y 12 =
  365 + (if is_leap y then 1 else 0).
Proof. unfold days_before_month, days_in_month. now destruct (is_leap y). Qed.

Lemma days_before_month_bounds y m :
  1 <= m <= 12 ->
  0 <= days_before_month y m /\
  days_before_month y m + days_in_month y m <=
    365 + (if is_leap y then 1 else 0).
Proof.
  intros Hm. unfold days_before_month, days_in_month.
  month_cases m; destruct (is_leap y); simpl; lia.
Qed.

Lemma days_before_month_lt y m1 m2 :
  1 <= m1 -> m1 < m2 -> m2 <= 12 ->
  days_before_month y m1 + days_in_month y m1 <= days_before_month y m2.
Proof.
  intros H1 H12 H2. unfold days_before_month, days_in_month.
  month_cases m1; try lia; month_cases m2; try lia;
    destruct (is_leap y); simpl; lia.
Qed.

Lemma toordinal_pos d : wf d -> 1 <= toordinal d.
Proof.
  intros (Hy & Hm & Hd). unfold toordinal, ymd2ord.
  pose proof (days_before_year_nonneg _ Hy).
  pose proof (days_before_month_bounds (year d) _ Hm). lia.
Qed.

(** The ordinal grows with the date, compared field by field. *)
Lemma cmp_toordinal a b :
  wf a -> wf b -> cmp a b = (toordinal a ?= toordinal b).
Proof.
  intros (Hya & Hma & Hda) (Hyb & Hmb & Hdb).
  unfold cmp, toordinal, ymd2ord. symmetry.
  pose proof (days_before_month_bounds (year a) _ Hma) as Ba.
  pose proof (days_before_month_bounds (year b) _ Hmb) as Bb.
  destruct (Z.compare_spec (year a) (year b)) as [Ey | Ly | Ly].
  - rewrite Ey in *.
    destruct (Z.compare_spec (month a) (month b)) as [Em | Lm | Lm].
    + rewrite Em. destruct (Z.compare_spec (day a) (day b));
        [apply Z.compare_eq_iff | apply Z.compare_lt_iff
        | apply Z.compare_gt_iff]; lia.
    + apply Z.compare_lt_iff.
      pose proof (days_before_month_lt (year b) (month a) (month b)). lia.
    + apply Z.compare_gt_iff.
      pose proof (days_before_month_lt (year b) (month b) (month a)). lia.
  - apply Z.compare_lt_iff.
    pose proof (days_before_year_step (year a)).
    pose proof (days_before_year_mono (year a + 1) (year b)). lia.
  - apply Z.compare_gt_iff.
    pose proof (days_before_year_step (year b)).
    pose proof (days_before_year_mono (year b + 1) (year a)). lia.
Qed.

Lemma cmp_eq a b : cmp a b = Eq -> a = b.
Proof.
  unfold cmp. destruct a as [ya ma da], b as [yb mb db]; simpl.
  destruct (Z.compare_spec ya yb); try discriminate.
  destruct (Z.compare_spec ma mb); try discriminate.
  intros ->%Z.compare_eq. congruence.
Qed.

Lemma toordinal_inj a b : wf a -> wf b -> toordinal a = toordinal b -> a = b.
Proof.
  intros Ha Hb E. apply cmp_eq. rewrite cmp_toordinal by assumption.
  now apply Z.compare_eq_iff.
Qed.

Lemma leb_toordinal a b :
  wf a -> wf b -> leb a b = (toordinal a <=? toordinal b).
Proof.
  intros Ha Hb. unfold leb, Z.leb. now rewrite cmp_toordinal.
Qed.

Lemma gtb_toordinal a b :
  wf a -> wf b -> gtb a b = (toordinal b <? toordinal a).
Proof.
  intros Ha Hb. unfold gtb. rewrite cmp_toordinal by assumption.
  rewrite Z.ltb_antisym. unfold Z.leb.
  now destruct (toordinal a ?= toordinal b).
Qed.

Lemma ord2ymd_shift n q :
  ord2ymd (n + DI400Y * q) = shift_years (400 * q) (ord2ymd n).
Proof.
  assert (Hd : (n + DI400Y * q - 1) / DI400Y = (n - 1) / DI400Y + q)
    by (unfold DI400Y; dlia).
  assert (Hm : (n + DI400Y * q - 1) mod DI400Y = (n - 1) mod DI400Y)
    by (unfold DI400Y; dlia).
  unfold ord2ymd; cbv zeta. rewrite Hd, Hm.
  repeat match goal with
         | |- context [if ?c then _ else _] => destruct c
         end; unfold shift_years; simpl; f_equal; lia.
Qed.

Lemma wf_shift d q : 0 <= q -> wf d -> wf (shift_years (400 * q) d).
Proof.
  intros Hq (Hy & Hm & Hd). unfold wf, shift_years; simpl.
  rewrite days_in_month_shift. lia.
Qed.

Lemma toordinal_shift d q :
  toordinal (shift_years (400 * q) d) = toordinal d + DI400Y * q.
Proof. unfold toordinal, shift_years; simpl. apply ymd2ord_shift. Qed.

Lemma all_from_spec k n p :
  all_from k n p = true ->
  forall i, n <= i < n + Z.of_nat k -> p i = true.
Proof.
  revert n. induction k as [|k IH]; intros n H i Hi; [lia|].
  simpl in H. apply andb_true_iff in H as [Hn Hk].
  destruct (Z.eq_dec i n) as [->|]; [assumption|].
  apply (IH (n + 1)); [assumption | lia].
Qed.

Lemma first_cycle : all_from (Z.to_nat DI400Y) 1 cycle_day_ok = true.
Proof. vm_cast_no_check (eq_refl true). Qed.

Lemma ord2ymd_spec n :
  1 <= n -> wf (ord2ymd n) /\ toordinal (ord2ymd n) = n.
Proof.
  intros Hn.
  set (q := (n - 1) / DI400Y). set (r := (n - 1) mod DI400Y + 1).
  assert (Hq : 0 <= q) by (unfold q, DI400Y; dlia).
  assert (Hr : 1 <= r < 1 + Z.of_nat (Z.to_nat DI400Y))
    by (unfold r, DI400Y; dlia).
  assert (E : n = r + DI400Y * q) by (unfold r, q, DI400Y; dlia).
  pose proof (all_from_spec _ _ _ first_cycle r Hr) as C.
  unfold cycle_day_ok in C; cbv zeta in C.
  apply andb_true_iff in C as [C Ho]. apply andb_true_iff in C as [Hv _].
  apply validb_valid in Hv as [Hv _]. apply Z.eqb_eq in Ho.
  rewrite E, ord2ymd_shift. split.
  - now apply wf_shift.
  - rewrite toordinal_shift. lia.
Qed.

Lemma toordinal_fromordinal n : 1 <= n -> toordinal (fromordinal n) = n.
Proof. intros Hn. now apply ord2ymd_spec. Qed.

Lemma wf_fromordinal n : 1 <= n -> wf (fromordinal n).
Proof. intros Hn. now apply ord2ymd_spec. Qed.

Lemma fromordinal_toordinal d : wf d -> fromordinal (toordinal d) = d.
Proof.
  intros Hd. pose proof (toordinal_pos d Hd) as Hp.
  apply toordinal_inj; [now apply wf_fromordinal | assumption|].
  now apply toordinal_fromordinal.
Qed.

Lemma toordinal_max d : valid d -> toordinal d <= MAXORDINAL.
Proof.
  intros [Hw Hy].
  assert (Hm : wf (mkdate 9999 12 31)) by now apply validb_wf.
  pose proof (cmp_toordinal d (mkdate 9999 12 31) Hw Hm) as C.
  change (toordinal (mkdate 9999 12 31)) with MAXORDINAL in C.
  destruct (Z.compare_spec (toordinal d) MAXORDINAL) as [?|?|G]; try lia.
  exfalso. revert C. unfold cmp; simpl. destruct Hw as (? & ? & Hd).
  pose proof (days_in_month_bounds (year d) (month d)).
  unfold MAXYEAR in Hy.
  destruct (Z.compare_spec (year d) 9999); try discriminate; try lia.
  destruct (Z.compare_spec (month d) 12); try discriminate; try lia.
  intros G'%Z.compare_gt_iff. lia.
Qed.

Lemma valid_fromordinal n : 1 <= n <= MAXORDINAL -> valid (fromordinal n).
Proof.
  intros [Hn Hx]. pose proof (ord2ymd_spec n Hn) as [Hw Ho].
  split; [assumption|].
  destruct (Z_le_gt_dec (year (ord2ymd n)) MAXYEAR) as [|G]; [assumption|].
  exfalso.
  assert (Hm : wf (mkdate 9999 12 31)) by now apply validb_wf.
  assert (C : cmp (mkdate 9999 12 31) (ord2ymd n) = Lt).
  { unfold cmp; cbn [year month day]. unfold MAXYEAR in G.
    assert (L : (9999 ?= year (ord2ymd n)) = Lt) by (apply Z.compare_lt_iff; lia).
    now rewrite L. }
  rewrite cmp_toordinal in C by assumption. rewrite Z.compare_lt_iff in C.
  rewrite Ho in C. change (toordinal (mkdate 9999 12 31)) with MAXORDINAL in C.
  lia.
Qed.

End PyFacts.

(** * Facts about [calendar_data.py] *)

Module CalFacts.

Import Py PyFacts calendar_data Spec.

Lemma bind_Ok {A B} (a : A) (k : A -> result B) : (Ok a ≫= k) = k a.
Proof. reflexivity. Qed.

Lemma foldM_cons {A S} (body : S -> A -> result S) s x l :
  foldM body s (x :: l) = body s x ≫= fun s' => foldM body s' l.
Proof. reflexivity. Qed.

Lemma foldM_nil {A S} (body : S -> A -> result S) s : foldM body s [] = Ok s.
Proof. reflexivity. Qed.

(** Parsing a table of dates and collecting them in a set. *)
Lemma parse_table strs : forall ds (acc : gset date),
  Forall2 (fun s d => strptime_Ymd s = Ok d) strs ds ->
  foldM (fun (holidays : gset date) date_str =>
           d ← strptime_Ymd date_str;
           Ok (holidays ∪ {[ d ]}))
        acc strs
  = Ok (acc ∪ list_to_set ds).
Proof.
  induction strs as [|s strs IH]; intros ds acc H; inversion H; subst.
  - rewrite foldM_nil, list_to_set_nil. now rewrite (right_id_L ∅ (∪)).
  - rewrite foldM_cons. match goal with E : strptime_Ymd _ = _ |- _ => rewrite E end.
    rewrite !bind_Ok, (IH _ _ ltac:(eassumption)), list_to_set_cons.
    now rewrite (assoc_L (∪)).
Qed.

Lemma holiday_tables :
  Forall2 (fun s d => strptime_Ymd s = Ok d)
          (HOLIDAYS_2026 ++ TRANSFERRED_HOLIDAYS_2026) holiday_list.
Proof. repeat constructor. Qed.

Lemma get_holidays_eq : get_holidays = Ok (list_to_set holiday_list).
Proof.
  unfold get_holidays. rewrite (parse_table _ _ _ holiday_tables).
  now rewrite (left_id_L ∅ (∪)).
Qed.

Lemma is_working_day_eq d : is_working_day d = Ok (negb (day_off d)).
Proof.
  unfold is_working_day. rewrite get_holidays_eq, bind_Ok.
  unfold day_off, is_weekend, is_holiday.
  rewrite (bool_decide_ext (d ∈ (list_to_set holiday_list : gset date))
             (d ∈ holiday_list)) by apply elem_of_list_to_set.
  destruct (bool_decide (d ∈ holiday_list)); [now rewrite orb_true_r|].
  rewrite orb_false_r.
  rewrite (bool_decide_ext (weekday d ∈ [5; 6])
             (weekday d = 5 \/ weekday d = 6)) by (rewrite !elem_of_cons, elem_of_nil; tauto).
  destruct (Z.eqb_spec (weekday d) 5), (Z.eqb_spec (weekday d) 6);
    (rewrite bool_decide_true by tauto) || (rewrite bool_decide_false by tauto);
    reflexivity.
Qed.

Lemma weekday_range d : 0 <= weekday d <= 6.
Proof. unfold weekday. dlia. Qed.

Lemma weekday_fromordinal n : 1 <= n -> weekday (fromordinal n) = (n + 6) mod 7.
Proof. intros H. unfold weekday. now rewrite toordinal_fromordinal. Qed.

Lemma add_days_ok d k :
  wf d -> 1 <= toordinal d + k <= MAXORDINAL ->
  add_days d k = Ok (fromordinal (toordinal d + k)).
Proof.
  intros Hd [H1 H2]. unfold add_days; cbv zeta.
  destruct (Z.ltb_spec 0 (toordinal d + k)); [|lia].
  destruct (Z.leb_spec (toordinal d + k) MAXORDINAL); [|lia]. reflexivity.
Qed.

(** The loop of [get_work_week_dates], and of any [for] loop that keeps
    the working days among [start + i]. *)
Lemma week_loop_spec start (l : list Z) acc :
  wf start ->
  (forall i, i ∈ l -> 1 <= toordinal start + i <= MAXORDINAL) ->
  foldM (fun work_days i =>
           current_day ← add_days start i;
           w ← is_working_day current_day;
           Ok (if w : bool then work_days ++ [current_day] else work_days))
        acc l
  = Ok (acc ++ filter working
                 ((fun i => fromordinal (toordinal start + i)) <$> l)).
Proof.
  intros Hs. revert acc. induction l as [|i l IH]; intros acc Hl.
  - rewrite foldM_nil, fmap_nil, filter_nil. now rewrite app_nil_r.
  - rewrite foldM_cons. rewrite add_days_ok by (auto; apply Hl; left).
    rewrite bind_Ok, is_working_day_eq, !bind_Ok. cbv beta.
    rewrite IH by (intros; apply Hl; now right).
    rewrite fmap_cons, filter_cons.
    destruct (decide (working _)) as [W | W]; unfold working in W.
    + rewrite W; cbn [negb]. now rewrite <- app_assoc.
    + apply not_false_is_true in W. now rewrite W.
Qed.

Lemma monday_ordinal_pos d : wf d -> 1 <= monday_ordinal d.
Proof.
  intros H%toordinal_pos. unfold monday_ordinal, weekday. dlia.
Qed.


Lemma monday_ordinal_weekday d : (monday_ordinal d + 6) mod 7 = 0.
Proof. unfold monday_ordinal, weekday. dlia. Qed.

Lemma get_work_week_dates_eq d :
  wf d -> monday_ordinal d + 6 <= MAXORDINAL ->
  get_work_week_dates d =
  Ok (filter working (week_of d)).
Proof.
  intros Hd Hmax. pose proof (monday_ordinal_pos d Hd) as Hp.
  unfold get_work_week_dates, sub_days.
  rewrite add_days_ok by (auto; fold (monday_ordinal d); unfold monday_ordinal in *; lia).
  rewrite bind_Ok. cbv beta.
  replace (toordinal d + - weekday d) with (monday_ordinal d)
    by (unfold monday_ordinal; lia).
  rewrite week_loop_spec.
  - rewrite toordinal_fromordinal by assumption. reflexivity.
  - now apply wf_fromordinal.
  - intros i Hi. apply elem_of_seqZ in Hi.
    rewrite toordinal_fromordinal by assumption. lia.
Qed.

(** The [while] loop of [get_month_working_days] walks the ordinals from
    [c] to [l]; one unit of fuel more than the days left is enough. *)
Lemma month_loop_S fuel last_day work_days current :
  month_loop (S fuel) last_day work_days current =
  if leb current last_day then
    w ← is_working_day current;
    let work_days := if w : bool then work_days ++ [current] else work_days in
    current ← add_days current 1;
    month_loop fuel last_day work_days current
  else Ok work_days.
Proof. reflexivity. Qed.

Lemma month_loop_spec (n : nat) : forall fuel c l acc,
  1 <= c -> 1 <= l -> l = c + Z.of_nat n - 1 -> l + 1 <= MAXORDINAL ->
  (n < fuel)%nat ->
  month_loop fuel (fromordinal l) acc (fromordinal c) =
  Ok (acc ++ filter working (fromordinal <$> seqZ c (Z.of_nat n))).
Proof.
  induction n as [|n IH]; intros fuel c l acc Hc Hl E Hmax Hf;
    (destruct fuel as [|fuel]; [lia|]); rewrite month_loop_S;
    rewrite leb_toordinal by (apply wf_fromordinal; assumption);
    rewrite !toordinal_fromordinal by assumption.
  - destruct (Z.leb_spec c l); [lia|].
    rewrite seqZ_nil by lia. now rewrite fmap_nil, filter_nil, app_nil_r.
  - destruct (Z.leb_spec c l); [|lia].
    rewrite is_working_day_eq, bind_Ok. cbv zeta beta.
    rewrite add_days_ok
      by (try (apply wf_fromordinal; assumption);
          rewrite toordinal_fromordinal by assumption; lia).
    rewrite bind_Ok. cbv beta. rewrite toordinal_fromordinal by assumption.
    rewrite (IH fuel (c + 1) l) by lia.
    rewrite (seqZ_cons c) by lia. rewrite fmap_cons, filter_cons.
    replace (Z.pred (Z.of_nat (S n))) with (Z.of_nat n) by lia.
    replace (Z.succ c) with (c + 1) by lia.
    destruct (decide (working _)) as [W | W]; unfold working in W.
    + rewrite W. unfold negb. now rewrite <- app_assoc.
    + apply not_false_is_true in W. now rewrite W.
Qed.

Lemma datetime_ok y m d :
  valid (mkdate y m d) -> datetime y m d = Ok (mkdate y m d).
Proof.
  intros [(Hy & Hm & Hd) Hx]; cbn [year month day] in *. unfold datetime.
  destruct (Z.leb_spec MINYEAR y); [|unfold MINYEAR in *; lia].
  destruct (Z.leb_spec y MAXYEAR); [|lia].
  destruct (Z.leb_spec 1 m); [|lia]. destruct (Z.leb_spec m 12); [|lia].
  destruct (Z.leb_spec 1 d); [|lia].
  destruct (Z.leb_spec d (days_in_month y m)); [|lia]. reflexivity.
Qed.

Lemma valid_first y m : 1 <= y <= MAXYEAR -> 1 <= m <= 12 -> valid (mkdate y m 1).
Proof.
  intros Hy Hm. pose proof (days_in_month_bounds y m Hm).
  unfold valid, wf; cbn [year month day]. lia.
Qed.

Lemma valid_next_month y m : month_ok y m -> valid (next_month y m).
Proof.
  intros (Hy & Hm & Hn). unfold next_month.
  destruct (Z.eqb_spec m 12); apply valid_first; lia.
Qed.

Lemma toordinal_next_month y m :
  1 <= m <= 12 ->
  toordinal (next_month y m) = toordinal (mkdate y m 1) + days_in_month y m.
Proof.
  intros Hm. unfold next_month, toordinal, ymd2ord.
  destruct (Z.eqb_spec m 12) as [-> | Hne]; cbn [year month day].
  - rewrite days_before_year_step.
    pose proof (days_before_month_december y).
    change (days_before_month (y + 1) 1) with 0. lia.
  - rewrite days_before_month_step by lia. lia.
Qed.

Lemma toordinal_day y m d : toordinal (mkdate y m d) = toordinal (mkdate y m 1) + d - 1.
Proof. unfold toordinal, ymd2ord; cbn [year month day]. lia. Qed.

Lemma month_days_ordinals y m :
  1 <= y -> 1 <= m <= 12 ->
  fromordinal <$> seqZ (toordinal (mkdate y m 1)) (days_in_month y m) =
  month_days y m.
Proof.
  intros Hy Hm. unfold month_days.
  replace (toordinal (mkdate y m 1))
    with (toordinal (mkdate y m 1) - 1 + 1) at 1 by lia.
  rewrite <- fmap_add_seqZ, <- list_fmap_compose.
  apply Forall_fmap_ext_1, Forall_seqZ. intros d Hd. unfold compose.
  replace (toordinal (mkdate y m 1) - 1 + d) with (toordinal (mkdate y m d))
    by (rewrite (toordinal_day y m d); lia).
  apply fromordinal_toordinal. unfold wf; cbn [year month day]. lia.
Qed.

Lemma get_month_working_days_eq y m :
  month_ok y m ->
  get_month_working_days y m = Ok (filter working (month_days y m)).
Proof.
  intros Hok. pose proof Hok as (Hy & Hm & Hn).
  pose proof (valid_first y m Hy Hm) as Vf.
  pose proof (valid_next_month y m Hok) as Vn.
  pose proof (toordinal_next_month y m Hm) as En.
  pose proof (days_in_month_bounds y m Hm) as Bd.
  pose proof (toordinal_pos _ (proj1 Vf)) as Pf.
  pose proof (toordinal_max _ Vn) as Mn.
  unfold get_month_working_days.
  rewrite (datetime_ok y m 1 Vf), bind_Ok. cbv beta.
  assert (El : (if m =? 12
                then d ← datetime (y + 1) 1 1; sub_days d 1
                else d ← datetime y (m + 1) 1; sub_days d 1)
               = Ok (fromordinal (toordinal (mkdate y m 1) + days_in_month y m - 1))).
  { unfold next_month in *.
    destruct (Z.eqb_spec m 12); rewrite (datetime_ok _ _ _ Vn), bind_Ok;
      unfold sub_days;
      rewrite add_days_ok by (try apply Vn; lia); f_equal; f_equal; lia. }
  rewrite El, bind_Ok. cbv beta.
  assert (L := month_loop_spec (Z.to_nat (days_in_month y m))
                (month_fuel (mkdate y m 1)
                   (fromordinal (toordinal (mkdate y m 1) + days_in_month y m - 1)))
                (toordinal (mkdate y m 1))
                (toordinal (mkdate y m 1) + days_in_month y m - 1) []).
  rewrite (fromordinal_toordinal (mkdate y m 1)) in L by apply Vf.
  rewrite L.
  - rewrite Z2Nat.id by lia. rewrite month_days_ordinals by lia. reflexivity.
  - assumption.
  - lia.
  - lia.
  - lia.
  - unfold month_fuel, diff_days. rewrite toordinal_fromordinal by lia. lia.
Qed.

End CalFacts.

(** * Text order of ISO dates *)

Module StrFacts.

Import Py PyFacts Spec.

Lemma N_of_digit_char n :
  N_of_ascii (digit_char n) = (48 + Z.to_N (n mod 10))%N.
Proof.
  unfold digit_char. apply N_ascii_embedding.
  assert (0 <= n mod 10 < 10) by dlia. lia.
Qed.

Lemma digit_char_compare x y :
  Ascii.compare (digit_char x) (digit_char y) = (x mod 10 ?= y mod 10).
Proof.
  unfold Ascii.compare. rewrite !N_of_digit_char.
  assert (0 <= x mod 10 < 10) by dlia. assert (0 <= y mod 10 < 10) by dlia.
  destruct (Z.compare_spec (x mod 10) (y mod 10));
    [apply N.compare_eq_iff | apply N.compare_lt_iff | apply N.compare_gt_iff];
    lia.
Qed.

Lemma compare_digit x y s t :
  String.compare (String (digit_char x) s) (String (digit_char y) t) =
  match x mod 10 ?= y mod 10 with
  | Eq => String.compare s t
  | c => c
  end.
Proof.
  change (String.compare (String (digit_char x) s) (String (digit_char y) t))
    with (match Ascii.compare (digit_char x) (digit_char y) with
          | Eq => String.compare s t
          | Lt => Lt
          | Gt => Gt
          end).
  rewrite digit_char_compare. now destruct (x mod 10 ?= y mod 10).
Qed.

Lemma compare_same c s t :
  String.compare (String c s) (String c t) = String.compare s t.
Proof.
  change (String.compare (String c s) (String c t))
    with (match Ascii.compare c c with
          | Eq => String.compare s t
          | Lt => Lt
          | Gt => Gt
          end).
  unfold Ascii.compare. now rewrite N.compare_refl.
Qed.

Lemma strftime_Ymd_unfold d :
  strftime_Ymd d =
  String (digit_char (year d / 1000)) (String (digit_char (year d / 100))
  (String (digit_char (year d / 10)) (String (digit_char (year d))
  (String "-" (String (digit_char (month d / 10)) (String (digit_char (month d))
  (String "-" (String (digit_char (day d / 10)) (String (digit_char (day d))
  EmptyString))))))))).
Proof. reflexivity. Qed.

Lemma cmp_key a b :
  valid a -> valid b -> cmp a b = (ymd_key a ?= ymd_key b).
Proof.
  intros [(Hya & Hma & Hda) _] [(Hyb & Hmb & Hdb) _].
  pose proof (days_in_month_bounds (year a) (month a) Hma).
  pose proof (days_in_month_bounds (year b) (month b) Hmb).
  unfold cmp, ymd_key. symmetry.
  destruct (Z.compare_spec (year a) (year b));
    [destruct (Z.compare_spec (month a) (month b));
      [destruct (Z.compare_spec (day a) (day b))|..]|..];
    (apply Z.compare_eq_iff || apply Z.compare_lt_iff || apply Z.compare_gt_iff);
    lia.
Qed.

Lemma strftime_key a b :
  valid a -> valid b ->
  String.compare (strftime_Ymd a) (strftime_Ymd b) = (ymd_key a ?= ymd_key b).
Proof.
  intros [(Hya & Hma & Hda) Hxa] [(Hyb & Hmb & Hdb) Hxb].
  pose proof (days_in_month_bounds (year a) (month a) Hma).
  pose proof (days_in_month_bounds (year b) (month b) Hmb).
  unfold MAXYEAR in *.
  rewrite !strftime_Ymd_unfold.
  rewrite !compare_digit, compare_same, !compare_digit, compare_same,
    !compare_digit.
  change (String.compare EmptyString EmptyString) with Eq.
  unfold ymd_key.
  destruct (Z.compare_spec (year a * 10000 + month a * 100 + day a)
                           (year b * 10000 + month b * 100 + day b));
  repeat match goal with
         | |- context [?x mod 10 ?= ?y mod 10] =>
             destruct (Z.compare_spec (x mod 10) (y mod 10))
         end;
  try reflexivity; exfalso; dlia.
Qed.

(** The text order of [strftime("%Y-%m-%d")] is the order of the dates. *)
Lemma strftime_compare a b :
  valid a -> valid b ->
  String.compare (strftime_Ymd a) (strftime_Ymd b) = cmp a b.
Proof. intros Ha Hb. now rewrite strftime_key, cmp_key. Qed.

Lemma strftime_inj a b :
  valid a -> valid b -> strftime_Ymd a = strftime_Ymd b -> a = b.
Proof.
  intros Ha Hb E. apply cmp_eq. rewrite <- strftime_compare by assumption.
  rewrite E. clear. induction (strftime_Ymd b) as [|c s IH]; [reflexivity|].
  now rewrite compare_same.
Qed.

Lemma strftime_leb a b :
  valid a -> valid b ->
  String.leb (strftime_Ymd a) (strftime_Ymd b) = (toordinal a <=? toordinal b).
Proof.
  intros Ha Hb. unfold String.leb. rewrite strftime_compare by assumption.
  rewrite cmp_toordinal by (apply Ha || apply Hb). unfold Z.leb.
  now destruct (toordinal a ?= toordinal b).
Qed.

End StrFacts.

(** * Facts about [database.py] *)

Module DbFacts.

Import Py PyFacts StrFacts database Spec.

Lemma key_is_spec uid s r : key_is uid s r = true <-> key r = (uid, s).
Proof.
  unfold key_is, key. rewrite andb_true_iff, Z.eqb_eq, String.eqb_eq.
  split; [intros [-> ->]; reflexivity | intros [= -> ->]; auto].
Qed.

Lemma key_is_refl uid s b n t : key_is uid s (mkvisit uid s b n t) = true.
Proof. now apply key_is_spec. Qed.

Lemma existsb_key_is uid s (l : list visit) :
  existsb (key_is uid s) l = true <-> (uid, s) ∈ key <$> l.
Proof.
  rewrite existsb_exists, list_elem_of_fmap. split.
  - intros (r & Hin & Hk). exists r. apply key_is_spec in Hk.
    split; [now symmetry | now apply list_elem_of_In].
  - intros (r & Hk & Hin). exists r. split; [now apply list_elem_of_In|].
    now apply key_is_spec.
Qed.

(** The upsert leaves the keys of the existing rows as they are. *)
Lemma upsert_keys uid s b n t (l : list visit) :
  key <$> ((fun r => if key_is uid s r then mkvisit uid s b n t else r) <$> l)
  = key <$> l.
Proof.
  rewrite <- list_fmap_compose. apply list_fmap_ext. intros _ r _.
  unfold compose. destruct (key_is uid s r) eqn:E; [|reflexivity].
  apply key_is_spec in E. now rewrite E.
Qed.

Lemma mark_visit_unique db now uid d b n :
  unique_keys db -> unique_keys (mark_visit db now uid d b n).
Proof.
  unfold unique_keys, mark_visit. intros H.
  destruct (existsb _ _) eqn:E; cbn [office_visits].
  - now rewrite upsert_keys.
  - rewrite fmap_app. apply NoDup_app. split; [assumption|].
    split; [|apply NoDup_singleton].
    intros k Hk [->|[]%elem_of_nil]%elem_of_cons. unfold key in Hk at 1.
    cbn [user_id visit_date] in Hk.
    apply existsb_key_is in Hk. congruence.
Qed.


Lemma delete_visit_unique db uid d :
  unique_keys db -> unique_keys (delete_visit db uid d).
Proof.
  unfold unique_keys, delete_visit; cbn [office_visits].
  intros H. eapply sublist_NoDup; first [exact H | apply fmap_sublist, sublist_filter].
Qed.

Lemma delete_visit_dated db uid d : dated db -> dated (delete_visit db uid d).
Proof.
  unfold dated, delete_visit; cbn [office_visits]. rewrite !Forall_forall.
  intros H r [_ Hr]%list_elem_of_filter. now apply H.
Qed.


Lemma init_db_unique : unique_keys init_db.
Proof. apply NoDup_nil_2. Qed.

Lemma init_db_dated : dated init_db.
Proof. constructor. Qed.

(** Looking up a key after an upsert of the rows. *)
Lemma find_upsert (p : visit -> bool) new (l : list visit) :
  p new = true ->
  find p ((fun r => if p r then new else r) <$> l) =
  if existsb p l then Some new else None.
Proof.
  intros Hn. induction l as [|r l IH]; [reflexivity|].
  rewrite fmap_cons. cbn [find existsb]. destruct (p r) eqn:E.
  - now rewrite Hn.
  - rewrite E. exact IH.
Qed.

Lemma find_app_new (p : visit -> bool) new (l : list visit) :
  p new = true -> existsb p l = false -> find p (l ++ [new]) = Some new.
Proof.
  intros Hn. induction l as [|r l IH]; cbn [existsb find app].
  - now rewrite Hn.
  - destruct (p r); [discriminate|]. exact IH.
Qed.

Lemma get_visit_mark_visit db now uid d b n :
  get_visit (mark_visit db now uid d b n) uid d =
  Some (mkvisit uid (strftime_Ymd d) b n now).
Proof.
  unfold get_visit, mark_visit.
  destruct (existsb _ _) eqn:E; cbn [office_visits].
  - rewrite find_upsert by apply key_is_refl. now rewrite E.
  - apply find_app_new; [apply key_is_refl | assumption].
Qed.

Lemma find_ext_in (p q : visit -> bool) (l : list visit) :
  (forall r, r ∈ l -> p r = q r) -> find p l = find q l.
Proof.
  induction l as [|r l IH]; intros H; [reflexivity|]. cbn [find].
  rewrite <- (H r) by left. rewrite IH by (intros; apply H; now right).
  reflexivity.
Qed.


(** Under the constraint a key holds at most one row. *)
Lemma unique_rows_at (l : list visit) uid s :
  NoDup (key <$> l) ->
  (length (filter (fun r => key_is uid s r) l) <= 1)%nat.
Proof.
  induction l as [|r l IH]; intros H; [simpl; lia|].
  rewrite fmap_cons in H. apply NoDup_cons in H as [Hr Hl].
  rewrite filter_cons. destruct (decide (key_is uid s r)) as [K | K].
  - apply Is_true_true, key_is_spec in K.
    destruct (filter _ l) as [|r' t] eqn:F; [simpl; lia|]. exfalso.
    assert (Hin : r' ∈ filter (fun r => key_is uid s r) l) by (rewrite F; left).
    apply list_elem_of_filter in Hin as [K' Hin].
    apply Is_true_true, key_is_spec in K'. apply Hr. rewrite K, <- K'.
    now apply list_elem_of_fmap_2.
  - now apply IH.
Qed.

Lemma find_some_filter (p : visit -> bool) (l : list visit) r :
  find p l = Some r -> r ∈ filter (fun r => p r) l.
Proof.
  intros [Hin Hp]%find_some. apply list_elem_of_filter.
  split; [now apply Is_true_true | now apply list_elem_of_In].
Qed.


Lemma get_visit_Some db uid d r :
  get_visit db uid d = Some r ->
  r ∈ office_visits db /\ key r = (uid, strftime_Ymd d).
Proof.
  unfold get_visit. intros [Hin Hk]%find_some. split.
  - now apply list_elem_of_In.
  - now apply key_is_spec.
Qed.

Lemma get_visit_None db uid d r :
  get_visit db uid d = None ->
  r ∈ office_visits db -> key r <> (uid, strftime_Ymd d).
Proof.
  unfold get_visit. intros Hn Hin Hk.
  apply list_elem_of_In in Hin. apply (find_none _ _ Hn r) in Hin.
  apply key_is_spec in Hk. congruence.
Qed.

End DbFacts.

(** * Facts about the range queries and the lookup built from them *)

Module QueryFacts.

Import Py PyFacts CalFacts StrFacts database DbFacts report_generator Spec.

Lemma get_visits_by_period_perm db uid a b :
  get_visits_by_period db uid a b ≡ₚ
  filter (fun r => in_period uid (strftime_Ymd a) (strftime_Ymd b) r)
         (office_visits db).
Proof. apply merge_sort_Permutation. Qed.

Lemma elem_of_get_visits_by_period db uid a b r :
  r ∈ get_visits_by_period db uid a b <->
  r ∈ office_visits db /\
  in_period uid (strftime_Ymd a) (strftime_Ymd b) r = true.
Proof.
  rewrite get_visits_by_period_perm, list_elem_of_filter, Is_true_true. tauto.
Qed.

Lemma in_period_spec uid lo hi r :
  in_period uid lo hi r = true <->
  user_id r = uid /\ String.leb lo (visit_date r) = true /\
  String.leb (visit_date r) hi = true.
Proof.
  unfold in_period. rewrite !andb_true_iff, Z.eqb_eq. tauto.
Qed.

(** On the text of dates the period test is the test on the dates. *)
Lemma in_period_dates uid a b d r :
  valid a -> valid b -> valid d -> visit_date r = strftime_Ymd d ->
  in_period uid (strftime_Ymd a) (strftime_Ymd b) r = true <->
  user_id r = uid /\ toordinal a <= toordinal d <= toordinal b.
Proof.
  intros Ha Hb Hd E. rewrite in_period_spec, E.
  rewrite !strftime_leb, !Z.leb_le by assumption. tauto.
Qed.

(** The rows of one user carry distinct dates. *)
Lemma period_dates_NoDup db uid a b :
  unique_keys db -> NoDup (visit_date <$> get_visits_by_period db uid a b).
Proof.
  intros Hu. rewrite get_visits_by_period_perm.
  apply (NoDup_fmap_1 (pair uid)). rewrite <- list_fmap_compose.
  assert (E : (pair uid ∘ visit_date) <$>
                filter (fun r => in_period uid (strftime_Ymd a) (strftime_Ymd b) r)
                       (office_visits db)
              = key <$> filter (fun r => in_period uid (strftime_Ymd a)
                                                  (strftime_Ymd b) r)
                               (office_visits db)).
  { apply list_fmap_ext. intros _ r Hr%list_elem_of_lookup_2.
    apply list_elem_of_filter in Hr as [Hp _].
    apply Is_true_true, in_period_spec in Hp as [<- _]. reflexivity. }
  rewrite E. eapply sublist_NoDup;
    first [exact Hu | apply fmap_sublist, sublist_filter].
Qed.

(** The dictionary comprehension. *)
Lemma visits_by_date_acc (l : list visit) : forall (acc : gmap string visit) s,
  (forall r, r ∈ l -> visit_date r <> s) ->
  foldl (fun d v => <[visit_date v := v]> d) acc l !! s = acc !! s.
Proof.
  induction l as [|x l IH]; intros acc s H; [reflexivity|].
  cbn [foldl]. rewrite IH by (intros; apply H; now right).
  apply lookup_insert_ne, H. left.
Qed.

Lemma visits_by_date_elem (l : list visit) : forall (acc : gmap string visit) r,
  NoDup (visit_date <$> l) -> r ∈ l ->
  foldl (fun d v => <[visit_date v := v]> d) acc l !! visit_date r = Some r.
Proof.
  induction l as [|x l IH]; intros acc r Hn Hr; [now apply elem_of_nil in Hr|].
  rewrite fmap_cons in Hn. apply NoDup_cons in Hn as [Hx Hl]. cbn [foldl].
  apply elem_of_cons in Hr as [-> | Hr]; [|now apply IH].
  rewrite visits_by_date_acc; [apply lookup_insert_eq|].
  intros r Hr E. apply Hx. rewrite <- E. now apply list_elem_of_fmap_2.
Qed.

(** The lookup the reports build from a range query answers like the
    store for the dates of the range, and holds nothing else. *)
Lemma visits_by_date_lookup db uid a b d :
  unique_keys db -> valid a -> valid b -> valid d ->
  visits_by_date (get_visits_by_period db uid a b) !! strftime_Ymd d =
  if (toordinal a <=? toordinal d) && (toordinal d <=? toordinal b)
  then get_visit db uid d else None.
Proof.
  intros Hu Ha Hb Hd. unfold visits_by_date.
  destruct (get_visit db uid d) as [r|] eqn:G.
  - apply get_visit_Some in G as [Hin Hk]. injection Hk as Hk1 Hk2.
    destruct ((toordinal a <=? toordinal d) && (toordinal d <=? toordinal b))
      eqn:R.
    + rewrite <- Hk2. apply visits_by_date_elem.
      * now apply period_dates_NoDup.
      * apply elem_of_get_visits_by_period. split; [assumption|].
        apply (in_period_dates uid a b d r); try assumption.
        apply andb_true_iff in R as [?%Z.leb_le ?%Z.leb_le]. auto.
    + rewrite visits_by_date_acc; [apply lookup_empty|].
      intros r' [_ Hp]%elem_of_get_visits_by_period E.
      apply (in_period_dates uid a b d r') in Hp as [_ Hp]; try assumption.
      apply andb_false_iff in R as [?%Z.leb_gt | ?%Z.leb_gt]; lia.
  - rewrite visits_by_date_acc; [rewrite lookup_empty; now destruct (_ && _)|].
    intros r' [Hin Hp]%elem_of_get_visits_by_period E.
    apply in_period_spec in Hp as [Hu' _].
    eapply get_visit_None; [exact G | exact Hin |]. unfold key. congruence.
Qed.

End QueryFacts.

(** * The reports, as the specification describes them *)

Module TextFacts.

Import Py PyFacts calendar_data CalFacts StrFacts database DbFacts report_generator QueryFacts Spec.

Lemma str_app_assoc (s1 s2 s3 : string) : (s1 +:+ s2) +:+ s3 = s1 +:+ s2 +:+ s3.
Proof.
  induction s1 as [|c s1 IH]; [reflexivity|].
  change (String c ((s1 +:+ s2) +:+ s3) = String c (s1 +:+ s2 +:+ s3)).
  now rewrite IH.
Qed.

Lemma str_app_nil_r (s : string) : s +:+ "" = s.
Proof.
  induction s as [|c s IH]; [reflexivity|].
  change (String c (s +:+ "") = String c s). now rewrite IH.
Qed.

Lemma str_app_nil_l (s : string) : "" +:+ s = s.
Proof. reflexivity. Qed.

Lemma concat_str_cons s l : concat_str (s :: l) = s +:+ concat_str l.
Proof. reflexivity. Qed.

Lemma foldl_append {A} (f : A -> string) (l : list A) : forall s,
  foldl (fun acc x => acc +:+ f x) s l = s +:+ concat_str (f <$> l).
Proof.
  induction l as [|x l IH]; intros s; cbn [foldl].
  - now rewrite fmap_nil, str_app_nil_r.
  - now rewrite IH, fmap_cons, concat_str_cons, str_app_assoc.
Qed.

Lemma foldM_append {A} (f : A -> string) body (l : list A) : forall s,
  (forall s x, x ∈ l -> body s x = Ok (s +:+ f x)) ->
  foldM body s l = Ok (s +:+ concat_str (f <$> l)).
Proof.
  induction l as [|x l IH]; intros s H.
  - now rewrite foldM_nil, fmap_nil, str_app_nil_r.
  - rewrite foldM_cons, H by left. rewrite bind_Ok.
    rewrite IH by (intros; apply H; now right).
    now rewrite fmap_cons, concat_str_cons, str_app_assoc.
Qed.

Lemma text_day_eq vd c ls day :
  text_day vd (c, ls) day =
  (c + (if decide (dict_status vd day = IN_OFFICE) then 1 else 0),
   ls ++ [strftime_dm day +:+ " " +:+ glyph (dict_status vd day)]).
Proof.
  unfold text_day, dict_status. cbn [fst snd].
  destruct (vd !! strftime_Ymd day) as [v|]; [destruct (was_in_office v)|];
    (rewrite decide_True by reflexivity) || (rewrite decide_False by discriminate);
    rewrite ?Z.add_0_r; reflexivity.
Qed.

Lemma text_day_fold vd (days : list date) : forall c ls,
  foldl (text_day vd) (c, ls) days =
  (c + office_count (dict_status vd) days,
   ls ++ ((fun d => strftime_dm d +:+ " " +:+ glyph (dict_status vd d)) <$> days)).
Proof.
  unfold office_count.
  induction days as [|d days IH]; intros c ls; cbn [foldl].
  - rewrite filter_nil, fmap_nil, app_nil_r. cbn [length]. f_equal. lia.
  - rewrite text_day_eq, IH, filter_cons, fmap_cons, <- app_assoc.
    destruct (decide (dict_status vd d = IN_OFFICE)); cbn [length app];
      f_equal; lia.
Qed.

Lemma text_week_eq vd weeks report wk days :
  weeks !! wk = Some days ->
  text_week vd weeks report wk =
  Ok (report +:+ week_section (dict_status vd) wk days).
Proof.
  intros Hw. unfold text_week, dict_getitem. rewrite Hw, bind_Ok.
  rewrite text_day_fold. cbn [fst snd]. cbv zeta. rewrite Z.add_0_l, app_nil_l.
  rewrite (foldl_append (fun status_line => "  " +:+ status_line +:+ nl)).
  rewrite <- list_fmap_compose. unfold week_section, flag, compose.
  rewrite !str_app_assoc. reflexivity.
Qed.

End TextFacts.

Module GroupFacts.

Import Py PyFacts calendar_data CalFacts StrFacts database DbFacts report_generator QueryFacts TextFacts Spec.

Lemma bucket_cons d days wk :
  bucket (d :: days) wk =
  if decide (get_week_number d = wk) then d :: bucket days wk else bucket days wk.
Proof. unfold bucket. now rewrite filter_cons. Qed.

Lemma group_acc (days : list date) : forall (acc : gmap Z (list date)) wk,
  foldl (fun weeks day =>
           let week_num := get_week_number day in
           <[week_num := default [] (weeks !! week_num) ++ [day]]> weeks)
        acc days !! wk =
  match bucket days wk with
  | [] => acc !! wk
  | l => Some (default [] (acc !! wk) ++ l)
  end.
Proof.
  induction days as [|d days IH]; intros acc wk; [reflexivity|].
  cbn [foldl]. cbv zeta. rewrite IH, bucket_cons.
  destruct (decide (get_week_number d = wk)) as [->|Hne].
  - rewrite lookup_insert_eq. cbn [default].
    destruct (bucket days _); [reflexivity|]. unfold id.
    now rewrite <- app_assoc.
  - rewrite lookup_insert_ne by assumption. reflexivity.
Qed.

(** The grouping loop files each day under its week number and keeps the
    days of a week in the order it met them. *)
Lemma group_by_week_lookup days wk :
  group_by_week days !! wk =
  match bucket days wk with [] => None | l => Some l end.
Proof.
  unfold group_by_week. rewrite group_acc, lookup_empty.
  now destruct (bucket days wk).
Qed.

Lemma bucket_nonempty days wk :
  bucket days wk <> [] <-> wk ∈ get_week_number <$> days.
Proof.
  unfold bucket. rewrite list_elem_of_fmap. split.
  - intros H. destruct (filter _ days) as [|d l] eqn:E; [congruence|].
    assert (Hd : d ∈ filter (fun d => get_week_number d = wk) days)
      by (rewrite E; left).
    apply list_elem_of_filter in Hd as [? ?]. eauto.
  - intros (d & -> & Hd) E.
    eapply (filter_nil_not_elem_of _ _ d); [exact E | reflexivity | exact Hd].
Qed.

Lemma sorted_keys_group days :
  sorted_keys (group_by_week days) = week_numbers days.
Proof.
  unfold sorted_keys, week_numbers.
  apply (Sorted_unique Z.le); try apply Sorted_merge_sort; try apply _.
  rewrite !merge_sort_Permutation.
  apply NoDup_Permutation; [apply NoDup_elements | apply NoDup_remove_dups|].
  intros wk. rewrite elem_of_elements, elem_of_dom, elem_of_remove_dups.
  rewrite group_by_week_lookup, <- bucket_nonempty.
  destruct (bucket days wk); split; intros H; try congruence; try done.
Qed.

Lemma week_numbers_lookup days wk :
  wk ∈ week_numbers days -> group_by_week days !! wk = Some (bucket days wk).
Proof.
  unfold week_numbers. rewrite merge_sort_Permutation, elem_of_remove_dups.
  intros H%bucket_nonempty. rewrite group_by_week_lookup.
  now destruct (bucket days wk).
Qed.

End GroupFacts.

Module PercentFacts.

Import Py PyFacts calendar_data CalFacts StrFacts database DbFacts report_generator QueryFacts TextFacts Spec.


(** Every percentage a month can show, computed in binary64 and printed
    with one fractional digit, is the exact quotient rounded. *)
Lemma percent_grid :
  all_from 31 1 (fun b => all_from 33 0 (percent_ok b)) = true.
Proof. vm_cast_no_check (eq_refl true). Qed.

Lemma percent_text_eq a b :
  0 <= a <= 32 -> 1 <= b <= 31 ->
  percent_text a b = Some (decimal1 (PyFloat.round_half_even (1000 * a) b)).
Proof.
  intros Ha Hb.
  pose proof (all_from_spec _ _ _ percent_grid b ltac:(lia)) as H1.
  pose proof (all_from_spec _ _ _ H1 a ltac:(lia)) as H2.
  now apply bool_decide_eq_true in H2.
Qed.

Lemma add_percent_eq report a b :
  0 <= a <= 32 -> 1 <= b <= 31 ->
  add_percent report a b =
  Ok (report +:+ "  • Процент посещений: " +:+
      decimal1 (PyFloat.round_half_even (1000 * a) b) +:+ "%" +:+ nl).
Proof.
  intros Ha Hb. pose proof (percent_text_eq a b Ha Hb) as E.
  unfold add_percent, percent_text in *.
  destruct (Z.ltb_spec 0 b); [|lia].
  destruct (PyFloat.truediv a b) as [q| |]; try discriminate.
  rewrite bind_Ok. cbv zeta. injection E as ->. reflexivity.
Qed.

Lemma add_percent_zero report a b : b <= 0 -> add_percent report a b = Ok report.
Proof. intros Hb. unfold add_percent. destruct (Z.ltb_spec 0 b); [lia|]. reflexivity. Qed.

End PercentFacts.

Module MonthFacts.

Import Py PyFacts calendar_data CalFacts StrFacts database DbFacts report_generator QueryFacts TextFacts GroupFacts PercentFacts Spec.

Lemma get_month_visits_eq db uid y m :
  month_ok y m -> get_month_visits db uid y m = Ok (month_rows db uid y m).
Proof.
  intros Hok. pose proof Hok as (Hy & Hm & _).
  pose proof (valid_next_month y m Hok) as Vn.
  unfold get_month_visits, month_rows.
  rewrite (datetime_ok y m 1) by now apply valid_first.
  rewrite bind_Ok. unfold next_month in *.
  destruct (Z.eqb_spec m 12); rewrite (datetime_ok _ _ _ Vn), bind_Ok;
    reflexivity.
Qed.

(** A range query returns at most one row per day of the range. *)
Lemma period_length db uid a b :
  unique_keys db -> dated db -> valid a -> valid b ->
  toordinal a <= toordinal b ->
  Z.of_nat (length (get_visits_by_period db uid a b)) <=
  toordinal b - toordinal a + 1.
Proof.
  intros Hu Hd Ha Hb Hab.
  pose proof (period_dates_NoDup db uid a b Hu) as Hn.
  set (days := (strftime_Ymd ∘ fromordinal) <$>
                 seqZ (toordinal a) (toordinal b - toordinal a + 1)).
  assert (Hs : visit_date <$> get_visits_by_period db uid a b ⊆+ days).
  { apply NoDup_submseteq; [assumption|].
    intros s (r & -> & Hr)%list_elem_of_fmap.
    apply elem_of_get_visits_by_period in Hr as [Hin Hp].
    unfold dated in Hd. rewrite Forall_forall in Hd.
    destruct (Hd r Hin) as (d & Vd & E).
    pose proof (proj1 (in_period_dates uid a b d r Ha Hb Vd E) Hp) as [_ Hp'].
    unfold days. apply list_elem_of_fmap. exists (toordinal d). split.
    - unfold compose. rewrite fromordinal_toordinal by apply Vd. exact E.
    - apply elem_of_seqZ. lia. }
  apply submseteq_length in Hs. unfold days in Hs.
  rewrite !length_fmap, length_seqZ in Hs. lia.
Qed.

Lemma count_in_office_le (l : list visit) :
  0 <= count_in_office l <= Z.of_nat (length l).
Proof.
  unfold count_in_office.
  pose proof (length_filter (fun v : visit => was_in_office v) l). lia.
Qed.

Lemma month_rows_length db uid y m :
  month_ok y m -> unique_keys db -> dated db ->
  Z.of_nat (length (month_rows db uid y m)) <= 32.
Proof.
  intros Hok Hu Hd. pose proof Hok as (Hy & Hm & _).
  pose proof (toordinal_next_month y m Hm).
  pose proof (days_in_month_bounds y m Hm).
  pose proof (period_length db uid (mkdate y m 1) (next_month y m) Hu Hd
                (valid_first y m Hy Hm) (valid_next_month y m Hok)).
  unfold month_rows. lia.
Qed.

Lemma elem_of_month_days y m d :
  d ∈ month_days y m <->
  year d = y /\ month d = m /\ 1 <= day d <= days_in_month y m.
Proof.
  unfold month_days. rewrite list_elem_of_fmap. setoid_rewrite elem_of_seqZ.
  split.
  - intros (k & -> & Hk). cbn [year month day]. lia.
  - intros (<- & <- & Hd). exists (day d). split; [now destruct d | lia].
Qed.

Lemma month_days_valid y m d :
  1 <= y <= MAXYEAR -> 1 <= m <= 12 -> d ∈ month_days y m -> valid d.
Proof.
  intros Hy Hm (<- & <- & Hd)%elem_of_month_days. unfold valid, wf. lia.
Qed.

Lemma month_days_length y m :
  1 <= m <= 12 -> Z.of_nat (length (month_days y m)) = days_in_month y m.
Proof.
  intros Hm. pose proof (days_in_month_bounds y m Hm).
  unfold month_days. rewrite length_fmap, length_seqZ. lia.
Qed.

(** For the days of the month the lookup of the text report answers like
    the store. *)
Lemma month_dict_status db uid y m d :
  month_ok y m -> unique_keys db -> d ∈ month_days y m ->
  dict_status (visits_by_date (month_rows db uid y m)) d = classify db uid d.
Proof.
  intros Hok Hu Hd. pose proof Hok as (Hy & Hm & _).
  pose proof (month_days_valid y m d Hy Hm Hd) as Vd.
  apply elem_of_month_days in Hd as (Ey & Em & Hd).
  unfold dict_status, classify, month_rows.
  rewrite (visits_by_date_lookup db uid _ _ d Hu (valid_first y m Hy Hm)
             (valid_next_month y m Hok) Vd).
  rewrite toordinal_next_month by assumption.
  replace (toordinal d) with (toordinal (mkdate y m 1) + day d - 1)
    by (rewrite <- toordinal_day; destruct d; cbn in *; congruence).
  destruct (Z.leb_spec (toordinal (mkdate y m 1))
                       (toordinal (mkdate y m 1) + day d - 1)); [|lia].
  destruct (Z.leb_spec (toordinal (mkdate y m 1) + day d - 1)
                       (toordinal (mkdate y m 1) + days_in_month y m)); [|lia].
  reflexivity.
Qed.

Lemma getitem_month_names m :
  1 <= m <= 12 -> getitem month_names (m - 1) = Ok (month_name m).
Proof. intros Hm. month_cases m; reflexivity. Qed.

Lemma week_section_ext (st st' : date -> status) wk (days : list date) :
  (forall d, d ∈ days -> st d = st' d) ->
  week_section st wk days = week_section st' wk days.
Proof.
  intros H. unfold week_section, office_count.
  assert (E1 : filter (fun d => st d = IN_OFFICE) days =
               filter (fun d => st' d = IN_OFFICE) days).
  { induction days as [|d days IH]; [reflexivity|].
    rewrite !filter_cons, IH by (intros; apply H; now right).
    rewrite (H d) by left. reflexivity. }
  assert (E2 : (fun d => "  " +:+ strftime_dm d +:+ " " +:+ glyph (st d) +:+ nl)
                 <$> days =
               (fun d => "  " +:+ strftime_dm d +:+ " " +:+ glyph (st' d) +:+ nl)
                 <$> days).
  { apply list_fmap_ext. intros _ d Hd%list_elem_of_lookup_2.
    now rewrite (H d Hd). }
  now rewrite E1, E2.
Qed.

(** The text report, written out. *)
Lemma generate_text_report_eq db uid y m :
  month_ok y m -> unique_keys db -> dated db ->
  let work_days := filter working (month_days y m) in
  let rows := month_rows db uid y m in
  let work := Z.of_nat (length work_days) in
  let office := count_in_office rows in
  let home :=
    Z.of_nat (length (filter (fun v => negb (was_in_office v)) rows)) in
  generate_text_report db uid y m =
  Ok (totals_text y m work office home +:+
      (if 0 <? work
       then percent_line (PyFloat.round_half_even (1000 * office) work)
       else "") +:+
      weeks_text (classify db uid) work_days).
Proof.
  intros Hok Hu Hd work_days rows work office home.
  pose proof Hok as (Hy & Hm & _).
  unfold generate_text_report.
  rewrite get_month_working_days_eq, bind_Ok by assumption.
  rewrite get_month_visits_eq, bind_Ok by assumption.
  rewrite getitem_month_names, bind_Ok by assumption. cbv zeta.
  fold work_days rows. fold work office home.
  assert (Hw : 0 <= work <= 31).
  { unfold work, work_days.
    pose proof (length_filter working (month_days y m)).
    pose proof (month_days_length y m Hm).
    pose proof (days_in_month_bounds y m Hm). lia. }
  assert (Ho : 0 <= office <= 32).
  { unfold office, rows.
    pose proof (count_in_office_le (month_rows db uid y m)).
    pose proof (month_rows_length db uid y m Hok Hu Hd). lia. }
  assert (Hp : forall report,
             add_percent report office work =
             Ok (report +:+
                 (if 0 <? work
                  then percent_line (PyFloat.round_half_even (1000 * office) work)
                  else ""))).
  { intros report. destruct (Z.ltb_spec 0 work).
    - rewrite add_percent_eq by lia. reflexivity.
    - rewrite add_percent_zero by lia. now rewrite str_app_nil_r. }
  rewrite Hp, bind_Ok.
  rewrite (foldM_append
             (fun wk => week_section (classify db uid) wk (bucket work_days wk))).
  - rewrite bind_Ok, sorted_keys_group.
    unfold totals_text, weeks_text. rewrite !str_app_assoc. reflexivity.
  - intros report wk Hwk. rewrite sorted_keys_group in Hwk.
    rewrite (text_week_eq _ _ _ _ _ (week_numbers_lookup _ _ Hwk)).
    f_equal. f_equal. apply week_section_ext. intros d Hdd.
    apply (month_dict_status db uid y m); try assumption.
    unfold bucket, work_days in Hdd.
    apply list_elem_of_filter in Hdd as [_ Hdd].
    now apply list_elem_of_filter in Hdd as [_ Hdd].
Qed.

End MonthFacts.

Module WeekFacts.

Import Py PyFacts calendar_data CalFacts StrFacts database DbFacts report_generator QueryFacts TextFacts GroupFacts PercentFacts MonthFacts Spec.

Lemma get_week_visits_eq db uid today :
  week_ok today -> get_week_visits db uid today = Ok (week_rows db uid today).
Proof.
  intros [[Hw _] Hmax]. pose proof (monday_ordinal_pos today Hw) as Hp.
  unfold get_week_visits, week_rows, sub_days.
  rewrite add_days_ok
    by (auto; fold (monday_ordinal today); unfold monday_ordinal in *; lia).
  rewrite bind_Ok.
  replace (toordinal today + - weekday today) with (monday_ordinal today)
    by (unfold monday_ordinal; lia).
  rewrite add_days_ok
    by (try (apply wf_fromordinal; assumption);
        rewrite toordinal_fromordinal by assumption; lia).
  rewrite bind_Ok, toordinal_fromordinal by assumption. reflexivity.
Qed.

Lemma elem_of_week_of today d :
  d ∈ week_of today <->
  exists i, 0 <= i < 7 /\ d = fromordinal (monday_ordinal today + i).
Proof.
  unfold week_of. rewrite list_elem_of_fmap. setoid_rewrite elem_of_seqZ.
  split; intros (i & H1 & H2); exists i; (split; [lia || assumption | lia || assumption]).
Qed.

Lemma week_of_valid today d :
  week_ok today -> d ∈ week_of today ->
  valid d /\ monday_ordinal today <= toordinal d <= monday_ordinal today + 6.
Proof.
  intros [[Hw _] Hmax] (i & Hi & ->)%elem_of_week_of.
  pose proof (monday_ordinal_pos today Hw). split.
  - apply valid_fromordinal. lia.
  - rewrite toordinal_fromordinal by lia. lia.
Qed.

Lemma week_dict_status_eq db uid today d :
  week_ok today -> unique_keys db -> d ∈ week_of today ->
  week_dict_status (visits_by_date (week_rows db uid today)) today d =
  classify_week db uid today d.
Proof.
  intros Hok Hu Hd. pose proof (week_of_valid today d Hok Hd) as [Vd Rd].
  destruct Hok as [Vt Hmax]. pose proof (monday_ordinal_pos today (proj1 Vt)).
  unfold week_dict_status, classify_week, week_rows.
  rewrite (visits_by_date_lookup db uid _ _ d Hu) by
    (try assumption; apply valid_fromordinal; lia).
  rewrite !toordinal_fromordinal by lia.
  destruct (Z.leb_spec (monday_ordinal today) (toordinal d)); [|lia].
  destruct (Z.leb_spec (toordinal d) (monday_ordinal today + 6)); [|lia].
  cbn [andb]. rewrite gtb_toordinal by (apply Vd || apply Vt). reflexivity.
Qed.

Lemma before_comma_weekday d rest :
  before_comma (weekday_name d +:+ ", " +:+ rest) = weekday_name d.
Proof.
  unfold weekday_name. pose proof (weekday_range d) as H.
  assert (C : weekday d = 0 \/ weekday d = 1 \/ weekday d = 2 \/ weekday d = 3 \/
              weekday d = 4 \/ weekday d = 5 \/ weekday d = 6) by lia.
  destruct C as [-> | [-> | [-> | [-> | [-> | [-> | ->]]]]]]; reflexivity.
Qed.

Lemma format_date_ru_eq d :
  valid d ->
  format_date_ru d =
  Ok (weekday_name d +:+ ", " +:+ str (day d) +:+ " " +:+
      nth (Z.to_nat (month d - 1)) months_ru EmptyString +:+ " " +:+
      str (year d)).
Proof.
  intros [(Hy & Hm & Hd) _]. unfold format_date_ru, weekday_name.
  pose proof (weekday_range d) as H.
  assert (C : weekday d = 0 \/ weekday d = 1 \/ weekday d = 2 \/ weekday d = 3 \/
              weekday d = 4 \/ weekday d = 5 \/ weekday d = 6) by lia.
  assert (E1 : getitem weekdays_ru (weekday d) =
               Ok (nth (Z.to_nat (weekday d)) weekdays_ru EmptyString)).
  { destruct C as [-> | [-> | [-> | [-> | [-> | [-> | ->]]]]]]; reflexivity. }
  assert (E2 : getitem months_ru (month d - 1) =
               Ok (nth (Z.to_nat (month d - 1)) months_ru EmptyString)).
  { set (m := month d) in *. clearbody m. month_cases m; reflexivity. }
  rewrite E1, bind_Ok, E2, bind_Ok. reflexivity.
Qed.

Lemma week_day_line_eq vd today status d :
  valid d ->
  week_day_line vd today status d =
  Ok (status +:+ week_line (week_dict_status vd today) d).
Proof.
  intros Vd. unfold week_day_line. rewrite (format_date_ru_eq d Vd), bind_Ok.
  cbv zeta. rewrite before_comma_weekday.
  unfold week_line, week_dict_status.
  destruct (vd !! strftime_Ymd d) as [v|];
    [destruct (was_in_office v) | destruct (gtb d today)]; reflexivity.
Qed.

Lemma week_line_ext (st st' : date -> status) d :
  st d = st' d -> week_line st d = week_line st' d.
Proof. unfold week_line. now intros ->. Qed.

(** The week overview, written out. *)
Lemma get_current_week_status_eq db uid today :
  week_ok today -> unique_keys db ->
  get_current_week_status db uid today =
  Ok (week_header today +:+
      concat_str (week_line (classify_week db uid today)
                    <$> filter working (week_of today)) +:+
      week_footer (count_in_office (week_rows db uid today))).
Proof.
  intros Hok Hu. pose proof Hok as [Vt Hmax].
  unfold get_current_week_status.
  rewrite get_work_week_dates_eq, bind_Ok by (apply Vt || assumption).
  rewrite get_week_visits_eq, bind_Ok by assumption. cbv zeta.
  rewrite (foldM_append (week_line (classify_week db uid today))).
  - rewrite bind_Ok. unfold week_header, week_footer, verdict.
    destruct (1 <=? count_in_office (week_rows db uid today));
      rewrite !str_app_assoc; reflexivity.
  - intros s d [_ Hd]%list_elem_of_filter.
    rewrite week_day_line_eq by (now apply (week_of_valid today d Hok)).
    f_equal. f_equal. apply week_line_ext.
    now apply week_dict_status_eq.
Qed.

Lemma filter_ext_in {A} (P Q : A -> Prop) `{!forall x, Decision (P x)}
    `{!forall x, Decision (Q x)} (l : list A) :
  (forall x, x ∈ l -> P x <-> Q x) -> filter P l = filter Q l.
Proof.
  induction l as [|x l IH]; intros Hx; [reflexivity|].
  rewrite !filter_cons, IH by (intros; apply Hx; now right).
  apply decide_ext, Hx. left.
Qed.

(** The office count of the week overview counts the office records of
    the seven days of the week. *)
Lemma week_office_count db uid today :
  week_ok today -> dated db ->
  count_in_office (week_rows db uid today) =
  Z.of_nat (length (week_office_rows db uid today)).
Proof.
  intros Hok Hd. pose proof Hok as [Vt Hmax].
  pose proof (monday_ordinal_pos today (proj1 Vt)) as Hp.
  unfold count_in_office, week_rows, week_office_rows. f_equal.
  rewrite get_visits_by_period_perm, list_filter_filter.
  f_equal. apply filter_ext_in. intros r Hr.
  unfold dated in Hd. rewrite Forall_forall in Hd.
  destruct (Hd r Hr) as (d & Vd & E).
  rewrite !Is_true_true.
  rewrite (in_period_dates uid _ _ d r) by
    (try assumption; apply valid_fromordinal; lia).
  rewrite !toordinal_fromordinal by lia.
  rewrite list_elem_of_fmap. setoid_rewrite elem_of_week_of. split.
  - intros (Hw & Hu & Hrange). repeat split; try assumption.
    exists d. split; [assumption|]. exists (toordinal d - monday_ordinal today).
    split; [lia|].
    replace (monday_ordinal today + (toordinal d - monday_ordinal today))
      with (toordinal d) by lia.
    symmetry. apply fromordinal_toordinal, Vd.
  - intros (Hu & Hw & d' & E' & i & Hi & ->). repeat split; try assumption.
    + assert (V' : valid (fromordinal (monday_ordinal today + i)))
        by (apply valid_fromordinal; lia).
      rewrite (strftime_inj d _ Vd V') by congruence.
      rewrite toordinal_fromordinal by lia. lia.
    + assert (V' : valid (fromordinal (monday_ordinal today + i)))
        by (apply valid_fromordinal; lia).
      rewrite (strftime_inj d _ Vd V') by congruence.
      rewrite toordinal_fromordinal by lia. lia.
Qed.

End WeekFacts.

Module SortFacts.

Import Py PyFacts calendar_data CalFacts StrFacts database DbFacts report_generator QueryFacts Spec.

Lemma StronglySorted_filter {A} (R : relation A) (P : A -> Prop)
    `{!forall x, Decision (P x)} (l : list A) :
  StronglySorted R l -> StronglySorted R (filter P l).
Proof.
  induction 1 as [|x l Hl IH Hx]; [constructor|].
  rewrite filter_cons. destruct (decide (P x)); [|assumption].
  constructor; [assumption|]. rewrite Forall_forall in *.
  intros y [_ Hy]%list_elem_of_filter. now apply Hx.
Qed.

Lemma StronglySorted_fmap_seqZ {B} (R : relation B) (f : Z -> B) (n : nat) :
  forall a,
  (forall i j, a <= i -> i < j -> j < a + Z.of_nat n -> R (f i) (f j)) ->
  StronglySorted R (f <$> seqZ a (Z.of_nat n)).
Proof.
  induction n as [|n IH]; intros a H.
  - rewrite seqZ_nil by lia. constructor.
  - rewrite seqZ_cons by lia. rewrite fmap_cons.
    replace (Z.pred (Z.of_nat (S n))) with (Z.of_nat n) by lia.
    constructor.
    + apply IH. intros i j Hi Hij Hj. apply H; lia.
    + rewrite Forall_fmap, Forall_seqZ. intros j Hj. apply H; lia.
Qed.

Lemma before_toordinal a b :
  wf a -> wf b -> before a b <-> toordinal a < toordinal b.
Proof.
  intros Ha Hb. unfold before. rewrite cmp_toordinal by assumption.
  apply Z.compare_lt_iff.
Qed.

Lemma month_days_sorted y m : StronglySorted before (month_days y m).
Proof.
  unfold month_days.
  destruct (Z_le_gt_dec (days_in_month y m) 0).
  - rewrite seqZ_nil by lia. constructor.
  - rewrite <- (Z2Nat.id (days_in_month y m)) by lia.
    apply StronglySorted_fmap_seqZ. intros i j _ Hij _.
    unfold before, cmp; cbn [year month day].
    rewrite !Z.compare_refl. now apply Z.compare_lt_iff.
Qed.

Lemma month_days_NoDup y m : NoDup (month_days y m).
Proof.
  unfold month_days. apply NoDup_fmap_2; [|apply NoDup_seqZ].
  intros a b [=]. assumption.
Qed.

Lemma week_of_sorted d : wf d -> StronglySorted before (week_of d).
Proof.
  intros Hd. pose proof (monday_ordinal_pos d Hd). unfold week_of.
  apply (StronglySorted_fmap_seqZ before _ 7 0). intros i j Hi Hij Hj.
  apply before_toordinal; try (apply wf_fromordinal; lia).
  rewrite !toordinal_fromordinal by lia. lia.
Qed.

Lemma week_of_lookup d i :
  wf d -> 0 <= i < 7 ->
  exists x, week_of d !! Z.to_nat i = Some x /\ weekday x = i /\
            toordinal x = toordinal d - weekday d + i.
Proof.
  intros Hd Hi. pose proof (monday_ordinal_pos d Hd).
  pose proof (monday_ordinal_weekday d).
  exists (fromordinal (monday_ordinal d + i)). split; [|split].
  - unfold week_of. rewrite list_lookup_fmap, lookup_seqZ_lt by lia.
    cbn. f_equal. f_equal. lia.
  - rewrite weekday_fromordinal by lia. dlia.
  - rewrite toordinal_fromordinal by lia. reflexivity.
Qed.

Lemma elem_of_holiday_list d :
  d ∈ holiday_list <-> year d = 2026 /\ listed_holiday d.
Proof.
  unfold holiday_list, listed_holiday.
  rewrite elem_of_app, list_elem_of_fmap. setoid_rewrite elem_of_seqZ.
  rewrite !elem_of_cons, elem_of_nil. destruct d as [y m k]; cbn [year month day].
  split.
  - intros [(i & [= -> -> ->] & Hi) | H]; [lia|].
    repeat (destruct H as [[= -> -> ->] | H]; [lia|]). destruct H.
  - intros (-> & H).
    destruct H as [[-> H] | H]; [left; exists k; split; [reflexivity | lia]|].
    right.
    repeat (destruct H as [[-> ->] | H]; [tauto|]). destruct H as [-> ->]. tauto.
Qed.

Lemma day_off_spec d :
  year d = 2026 ->
  day_off d = true <-> weekday d = 5 \/ weekday d = 6 \/ listed_holiday d.
Proof.
  intros Hy. unfold day_off, is_weekend, is_holiday.
  rewrite !orb_true_iff, !Z.eqb_eq, bool_decide_eq_true, elem_of_holiday_list.
  tauto.
Qed.

End SortFacts.

Module StoreFacts.

Import Py PyFacts calendar_data CalFacts StrFacts database DbFacts report_generator QueryFacts TextFacts GroupFacts PercentFacts MonthFacts WeekFacts SortFacts Spec.

Lemma rows_at_mark_visit db now uid d b n :
  unique_keys db -> length (rows_at (mark_visit db now uid d b n) uid d) = 1%nat.
Proof.
  intros Hu. unfold rows_at.
  pose proof (unique_rows_at _ uid (strftime_Ymd d)
                (mark_visit_unique db now uid d b n Hu)) as Hle.
  pose proof (get_visit_mark_visit db now uid d b n) as Hg.
  apply find_some_filter in Hg.
  destruct (filter _ _) as [|r l]; [now apply elem_of_nil in Hg|].
  cbn [length] in *. lia.
Qed.

Lemma delete_visit_absent db uid d :
  get_visit db uid d = None -> delete_visit db uid d = db.
Proof.
  destruct db as [us vs]. unfold delete_visit, get_visit;
    cbn [users office_visits]. intros G. f_equal.
  induction vs as [|r vs IH]; [reflexivity|]. cbn [find] in G.
  rewrite filter_cons. destruct (key_is uid (strftime_Ymd d) r) eqn:E;
    [discriminate|]. cbn [negb]. rewrite decide_True by done.
  f_equal. now apply IH.
Qed.

Lemma init_db_ok : store_ok init_db.
Proof. split; [apply init_db_unique | apply init_db_dated]. Qed.

Lemma week_ok_intro d :
  validb d = true -> (monday_ordinal d + 6 <=? MAXORDINAL) = true -> week_ok d.
Proof. intros H1%validb_valid H2%Z.leb_le. now split. Qed.

Lemma month_ok_intro y m :
  (1 <=? y) && (y <=? MAXYEAR) && (1 <=? m) && (m <=? 12)
  && negb ((y =? MAXYEAR) && (m =? 12)) = true -> month_ok y m.
Proof.
  rewrite !andb_true_iff, negb_true_iff, andb_false_iff, !Z.leb_le, !Z.eqb_neq.
  unfold month_ok. lia.
Qed.

End StoreFacts.

(** * The claims *)

Module Claims.

Import Py PyFacts calendar_data CalFacts StrFacts database DbFacts report_generator QueryFacts TextFacts GroupFacts PercentFacts MonthFacts WeekFacts SortFacts StoreFacts Spec.

(** C1, at the input where the code departs from it: with a single visit
    of user 7 dated 2026-02-01 in the store, [get_month_visits] for
    January 2026 returns that visit, although it is dated on the 1st of
    the following month. *)
Theorem C1_month_visits_return_next_first :
  get_month_visits
    (mark_visit init_db "2026-02-01 09:00:00" 7 (mkdate 2026 2 1) true None)
    7 2026 1
  = Ok [mkvisit 7 "2026-02-01" true None "2026-02-01 09:00:00"].
Proof. vm_compute. reflexivity. Qed.

(** C2: in a store that satisfies the uniqueness constraint, after
    [mark_visit u d b1 n1] followed by [mark_visit u d b2 n2] exactly one
    row is stored under the key (u, d) and [get_visit u d] returns the
    row with [was_in_office = b2] and [note = n2]; already after the first
    write one row is stored under the key and [get_visit] returns the
    values written. *)
Theorem C2_mark_visit_last_write_wins db now1 now2 u d b1 b2 n1 n2 :
  unique_keys db ->
  let db1 := mark_visit db now1 u d b1 n1 in
  let db2 := mark_visit db1 now2 u d b2 n2 in
  length (rows_at db2 u d) = 1%nat /\
  get_visit db2 u d = Some (mkvisit u (strftime_Ymd d) b2 n2 now2) /\
  length (rows_at db1 u d) = 1%nat /\
  get_visit db1 u d = Some (mkvisit u (strftime_Ymd d) b1 n1 now1).
Proof.
  intros Hu db1 db2.
  assert (Hu1 : unique_keys db1) by now apply mark_visit_unique.
  repeat split.
  - now apply rows_at_mark_visit.
  - apply get_visit_mark_visit.
  - now apply rows_at_mark_visit.
  - apply get_visit_mark_visit.
Qed.

Lemma C2_witness :
  unique_keys init_db /\
  get_visit (mark_visit (mark_visit init_db "t1" 7 (mkdate 2026 1 12) true None)
                        "t2" 7 (mkdate 2026 1 12) false (Some "note"%string))
            7 (mkdate 2026 1 12)
  = Some (mkvisit 7 "2026-01-12" false (Some "note"%string) "t2").
Proof.
  split; [apply init_db_unique|].
  apply (C2_mark_visit_last_write_wins init_db "t1" "t2" 7 (mkdate 2026 1 12)
           true false None (Some "note"%string) init_db_unique).
Defined.

(** C3: for every date of 2026, [is_working_day] returns a boolean that
    is false exactly when the weekday is Saturday (5) or Sunday (6) or the
    date is one of 01-01..01-09, 02-23, 03-08, 05-01, 05-09, 05-11, 06-12,
    11-04, and true otherwise; 2026-01-01 is not a working day and
    2026-01-12 is one. *)
Theorem C3_is_working_day_2026 d :
  year d = 2026 ->
  (exists b, is_working_day d = Ok b /\
     (b = false <-> weekday d = 5 \/ weekday d = 6 \/ listed_holiday d) /\
     (b = true <-> ~ (weekday d = 5 \/ weekday d = 6 \/ listed_holiday d))) /\
  is_working_day (mkdate 2026 1 1) = Ok false /\
  is_working_day (mkdate 2026 1 12) = Ok true.
Proof.
  intros Hy. split; [|split; rewrite is_working_day_eq; reflexivity].
  exists (negb (day_off d)). split; [apply is_working_day_eq|].
  rewrite <- (day_off_spec d Hy). destruct (day_off d); cbn [negb]; split;
    split; congruence.
Qed.

Lemma C3_witness :
  year (mkdate 2026 5 11) = 2026 /\
  is_working_day (mkdate 2026 1 12) = Ok true.
Proof.
  split; [reflexivity|].
  apply (C3_is_working_day_2026 (mkdate 2026 5 11) eq_refl).
Defined.

(** C4: for every year and month [datetime] can walk through,
    [get_month_working_days] returns a list that, together with the
    weekend and holiday dates of the month, is a rearrangement of the
    calendar days from the 1st to the last day of the month; no returned
    day is a weekend or holiday date, the calendar days and the returned
    days hold no duplicates, and the returned days are in chronological
    order. *)
Theorem C4_month_working_days_partition y m :
  month_ok y m ->
  exists work_days,
    get_month_working_days y m = Ok work_days /\
    work_days ++ filter (fun d => day_off d = true) (month_days y m)
      ≡ₚ month_days y m /\
    (forall d, d ∈ work_days -> day_off d = false) /\
    (forall d, d ∈ month_days y m <->
               year d = y /\ month d = m /\ 1 <= day d <= days_in_month y m) /\
    NoDup (month_days y m) /\
    NoDup work_days /\
    StronglySorted before work_days.
Proof.
  intros Hok. exists (filter working (month_days y m)).
  split; [now apply get_month_working_days_eq|]. split_and!.
  - rewrite <- (filter_app_complement working (month_days y m)) at 3.
    f_equiv. apply reflexive_eq, list_filter_iff. intros d. unfold working.
    destruct (day_off d); split; congruence.
  - now intros d [Hd _]%list_elem_of_filter.
  - apply elem_of_month_days.
  - apply month_days_NoDup.
  - apply NoDup_filter, month_days_NoDup.
  - apply StronglySorted_filter, month_days_sorted.
Qed.

Lemma C4_witness :
  month_ok 2026 1 /\
  exists work_days, get_month_working_days 2026 1 = Ok work_days /\
                    NoDup work_days.
Proof.
  assert (H : month_ok 2026 1) by now apply month_ok_intro.
  split; [exact H|].
  destruct (C4_month_working_days_partition 2026 1 H)
    as (wd & E & _ & _ & _ & _ & N & _).
  exists wd. split; assumption.
Defined.

(** C5: for every date whose week [datetime] can hold,
    [get_work_week_dates] returns the working days among the seven days of
    the week of the date, in their order; the seven days are consecutive,
    the i-th has weekday index i and lies i days after the date minus its
    weekday index, the date is one of them, and the result is in
    chronological order and has at most 7 entries. *)
Theorem C5_work_week_dates d :
  week_ok d ->
  exists work_days,
    get_work_week_dates d = Ok work_days /\
    work_days = filter working (week_of d) /\
    (forall i, 0 <= i < 7 ->
       exists x, week_of d !! Z.to_nat i = Some x /\ weekday x = i /\
                 toordinal x = toordinal d - weekday d + i) /\
    length (week_of d) = 7%nat /\
    d ∈ week_of d /\
    StronglySorted before work_days /\
    (0 <= length work_days <= 7)%nat.
Proof.
  intros [[Hw Hy] Hmax]. exists (filter working (week_of d)).
  split; [now apply get_work_week_dates_eq|]. split_and!.
  - reflexivity.
  - intros i Hi. now apply week_of_lookup.
  - unfold week_of. now rewrite length_fmap, length_seqZ.
  - apply elem_of_week_of. exists (weekday d).
    pose proof (weekday_range d). split; [lia|].
    unfold monday_ordinal.
    replace (toordinal d - weekday d + weekday d) with (toordinal d) by lia.
    symmetry. now apply fromordinal_toordinal.
  - apply StronglySorted_filter. now apply week_of_sorted.
  - lia.
  - pose proof (length_filter working (week_of d)) as H.
    unfold week_of in H at 2. rewrite length_fmap, length_seqZ in H.
    change (Z.to_nat 7) with 7%nat in H. exact H.
Qed.

Lemma C5_witness :
  week_ok (mkdate 2026 1 14) /\
  exists work_days, get_work_week_dates (mkdate 2026 1 14) = Ok work_days /\
                    (0 <= length work_days <= 7)%nat.
Proof.
  assert (H : week_ok (mkdate 2026 1 14)) by now apply week_ok_intro.
  split; [exact H|].
  destruct (C5_work_week_dates (mkdate 2026 1 14) H)
    as (wd & E & _ & _ & _ & _ & _ & L).
  exists wd. split; assumption.
Defined.

(** C6: in the text report of a month, the block of every week bucket
    carries the flag of the number of working days of the bucket for
    which the store holds a record with [was_in_office = true]; the flag
    is the compliant one exactly when that number is at least 1, and the
    non-compliant one when it is 0. *)
Theorem C6_weekly_compliance_flag db u y m :
  month_ok y m -> store_ok db ->
  let work_days := filter working (month_days y m) in
  let in_office := fun wk => office_count (classify db u) (bucket work_days wk) in
  (exists head,
     generate_text_report db u y m =
     Ok (head +:+
         concat_str ((fun wk => week_section (classify db u) wk (bucket work_days wk))
                       <$> week_numbers work_days) +:+
         legend)) /\
  (forall st wk days,
     exists rest,
       week_section st wk days =
       "<b>Неделя " +:+ str wk +:+ "</b> " +:+ flag (office_count st days) +:+
       nl +:+ rest) /\
  (forall wk, flag (in_office wk) = "✅"%string <-> 1 <= in_office wk) /\
  (forall wk, in_office wk = 0 -> flag (in_office wk) = "⚠️"%string).
Proof.
  intros Hok [Hu Hd] work_days in_office. split_and!.
  - eexists. rewrite (generate_text_report_eq db u y m Hok Hu Hd). cbv zeta.
    fold work_days. unfold weeks_text. rewrite <- !str_app_assoc. reflexivity.
  - intros st wk days. eexists. unfold week_section. reflexivity.
  - intros wk. unfold flag. destruct (Z.leb_spec 1 (in_office wk)); split;
      intros H'; try reflexivity; try lia; discriminate.
  - intros wk ->. reflexivity.
Qed.

Lemma C6_witness :
  month_ok 2026 1 /\ store_ok init_db /\
  flag (office_count (classify init_db 7)
          (bucket (filter working (month_days 2026 1)) 3)) = "⚠️"%string.
Proof.
  assert (H : month_ok 2026 1) by now apply month_ok_intro.
  split; [exact H|]. split; [exact init_db_ok|].
  destruct (C6_weekly_compliance_flag init_db 7 2026 1 H init_db_ok)
    as (_ & _ & _ & Z0).
  apply Z0. vm_compute. reflexivity.
Defined.

(** C7: the week overview lists the working days of the week of today,
    each with the status read from the store, where a day without a visit
    record is planned when it lies strictly after today and unmarked
    otherwise; run on Wednesday 2026-01-14 with no records, Thursday and
    Friday are shown as planned and Monday to Wednesday as unmarked. *)
Theorem C7_unrecorded_future_days_planned db u today :
  week_ok today -> unique_keys db ->
  (exists n,
     get_current_week_status db u today =
     Ok (week_header today +:+
         concat_str (week_line (classify_week db u today)
                       <$> filter working (week_of today)) +:+
         week_footer n)) /\
  (forall day, get_visit db u day = None ->
     (toordinal today < toordinal day ->
      classify_week db u today day = PLANNED) /\
     (toordinal day <= toordinal today ->
      classify_week db u today day = UNMARKED)) /\
  get_current_week_status init_db 7 (mkdate 2026 1 14) =
  Ok ("📅 <b>Текущая неделя (неделя 3)</b>" +:+ nl +:+ nl +:+
      "❓ Понедельник (12.01) - не отмечено" +:+ nl +:+
      "❓ Вторник (13.01) - не отмечено" +:+ nl +:+
      "❓ Среда (14.01) - не отмечено" +:+ nl +:+
      "⏳ Четверг (15.01) - планируется" +:+ nl +:+
      "⏳ Пятница (16.01) - планируется" +:+ nl +:+ nl +:+
      "<b>Дней в офисе: 0</b>" +:+ nl +:+
      "⚠️ <b>Требуется минимум 1 посещение офиса</b>").
Proof.
  intros Hok Hu. split_and!.
  - eexists. now apply get_current_week_status_eq.
  - intros day Hn. unfold classify_week. rewrite Hn. split; intros H.
    + destruct (Z.ltb_spec (toordinal today) (toordinal day)); [reflexivity | lia].
    + destruct (Z.ltb_spec (toordinal today) (toordinal day)); [lia | reflexivity].
  - vm_compute. reflexivity.
Qed.

Lemma C7_witness :
  week_ok (mkdate 2026 1 14) /\ unique_keys init_db /\
  classify_week init_db 7 (mkdate 2026 1 14) (mkdate 2026 1 15) = PLANNED.
Proof.
  assert (H : week_ok (mkdate 2026 1 14)) by now apply week_ok_intro.
  split; [exact H|]. split; [exact init_db_unique|].
  destruct (C7_unrecorded_future_days_planned init_db 7 (mkdate 2026 1 14)
              H init_db_unique) as (_ & P & _).
  apply (P (mkdate 2026 1 15) eq_refl). vm_compute. reflexivity.
Defined.

(** C8, at inputs where the code departs from it.  The in-office days of
    the report are counted over the rows of the month query, which reach
    the 1st of the following month (C1).  With a single in-office visit
    of user 7 dated 2026-04-01 in the store, no record is dated in March
    2026 and every week of the March report shows no office day, yet the
    totals show one in-office day and 4.5% where the in-office days of
    March divided by its 22 working days give 0.0%.  With an in-office
    visit on each of the 22 working days of March 2026 and one on
    2026-04-01, 22 in-office records are dated in March, and the report
    shows 23 in-office days and 104.5% where they give 100.0%. *)
Theorem C8_percentage_counts_next_first :
  let stamp := "2026-04-01 09:00:00"%string in
  let march := filter working (month_days 2026 3) in
  let db1 := mark_visit init_db stamp 7 (mkdate 2026 4 1) true None in
  let db2 :=
    foldl (fun db d => mark_visit db stamp 7 d true None) init_db
          (march ++ [mkdate 2026 4 1]) in
  let in_march (r : visit) :=
    bool_decide (visit_date r ∈ strftime_Ymd <$> month_days 2026 3) in
  (get_month_working_days 2026 3 = Ok march /\ length march = 22%nat) /\
  (filter (fun r => in_march r && was_in_office r) (office_visits db1) = [] /\
   generate_text_report db1 7 2026 3 =
   Ok (totals_text 2026 3 22 1 0 +:+ percent_line 45 +:+
       weeks_text (fun _ => UNMARKED) march) /\
   percent_line 45 = ("  • Процент посещений: 4.5%" +:+ nl)%string) /\
  (length (filter (fun r => in_march r && was_in_office r)
                  (office_visits db2)) = 22%nat /\
   generate_text_report db2 7 2026 3 =
   Ok (totals_text 2026 3 22 23 0 +:+ percent_line 1045 +:+
       weeks_text (fun _ => IN_OFFICE) march) /\
   percent_line 1045 = ("  • Процент посещений: 104.5%" +:+ nl)%string).
Proof. vm_compute. repeat split; reflexivity. Qed.

(** C9: after [delete_visit u d] no row is stored under (u, d) and
    [get_visit u d] finds nothing, every row under another key is kept,
    and when no row was stored under (u, d) the store is unchanged. *)
Theorem C9_delete_visit db u d :
  get_visit (delete_visit db u d) u d = None /\
  rows_at (delete_visit db u d) u d = [] /\
  (forall r, r ∈ office_visits (delete_visit db u d) <->
             r ∈ office_visits db /\ key r <> (u, strftime_Ymd d)) /\
  users (delete_visit db u d) = users db /\
  (get_visit db u d = None -> delete_visit db u d = db).
Proof.
  assert (Hm : forall r, r ∈ office_visits (delete_visit db u d) <->
                         r ∈ office_visits db /\ key r <> (u, strftime_Ymd d)).
  { intros r. unfold delete_visit; cbn [office_visits].
    rewrite list_elem_of_filter, <- key_is_spec.
    destruct (key_is u (strftime_Ymd d) r); cbn [negb]; split;
      intros [? ?]; split; try assumption; try discriminate; try done. }
  split_and!.
  - destruct (get_visit _ u d) as [r|] eqn:G; [|reflexivity].
    apply get_visit_Some in G as [Hin Hk]. apply Hm in Hin as [_ Hne].
    contradiction.
  - unfold rows_at. destruct (filter _ _) as [|r l] eqn:F; [reflexivity|].
    assert (Hr : r ∈ filter (fun r => key_is u (strftime_Ymd d) r)
                   (office_visits (delete_visit db u d))) by (rewrite F; left).
    apply list_elem_of_filter in Hr as [Hk Hin].
    apply Is_true_true, key_is_spec in Hk. apply Hm in Hin as [_ Hne].
    contradiction.
  - exact Hm.
  - reflexivity.
  - apply delete_visit_absent.
Qed.

(** C10: the office count and the verdict of the week overview are those
    of the office records of the user dated on any of the seven days,
    Monday to Sunday, of the week, working day or not; a single office
    record on Saturday 2026-01-17, a day that is not a working day and is
    not listed, makes the overview of that week report the requirement as
    met. *)
Theorem C10_week_count_over_seven_days db u today :
  week_ok today -> store_ok db ->
  let n := Z.of_nat (length (week_office_rows db u today)) in
  get_current_week_status db u today =
  Ok (week_header today +:+
      concat_str (week_line (classify_week db u today)
                    <$> filter working (week_of today)) +:+
      week_footer n) /\
  (verdict n = "✅ <b>Норма выполнена!</b>"%string <-> 1 <= n) /\
  (weekday (mkdate 2026 1 17) = 5 /\
   is_working_day (mkdate 2026 1 17) = Ok false /\
   get_current_week_status
     (mark_visit init_db "2026-01-17 12:00:00" 7 (mkdate 2026 1 17) true None)
     7 (mkdate 2026 1 14) =
   Ok ("📅 <b>Текущая неделя (неделя 3)</b>" +:+ nl +:+ nl +:+
       "❓ Понедельник (12.01) - не отмечено" +:+ nl +:+
       "❓ Вторник (13.01) - не отмечено" +:+ nl +:+
       "❓ Среда (14.01) - не отмечено" +:+ nl +:+
       "⏳ Четверг (15.01) - планируется" +:+ nl +:+
       "⏳ Пятница (16.01) - планируется" +:+ nl +:+ nl +:+
       "<b>Дней в офисе: 1</b>" +:+ nl +:+
       "✅ <b>Норма выполнена!</b>")).
Proof.
  intros Hok [Hu Hd] n. split_and!.
  - rewrite (get_current_week_status_eq db u today Hok Hu).
    now rewrite (week_office_count db u today Hok Hd).
  - unfold verdict. destruct (Z.leb_spec 1 n); split; intros H';
      try reflexivity; try lia; discriminate.
  - reflexivity.
  - rewrite is_working_day_eq. reflexivity.
  - vm_compute. reflexivity.
Qed.

Lemma C10_witness :
  week_ok (mkdate 2026 1 14) /\ store_ok init_db /\
  (verdict (Z.of_nat (length (week_office_rows init_db 7 (mkdate 2026 1 14))))
   = "✅ <b>Норма выполнена!</b>"%string <->
   1 <= Z.of_nat (length (week_office_rows init_db 7 (mkdate 2026 1 14)))).
Proof.
  assert (H : week_ok (mkdate 2026 1 14)) by now apply week_ok_intro.
  split; [exact H|]. split; [exact init_db_ok|].
  apply (C10_week_count_over_seven_days init_db 7 (mkdate 2026 1 14) H init_db_ok).
Defined.

End Claims.

(** * Further facts about the store *)

Module StoreFacts2.

Import Py PyFacts calendar_data CalFacts StrFacts database DbFacts report_generator QueryFacts TextFacts GroupFacts PercentFacts MonthFacts WeekFacts SortFacts StoreFacts Spec.











End StoreFacts2.

(** * Further facts about the queries and the calendar *)

Module QueryFacts2.

Import Py PyFacts calendar_data CalFacts StrFacts database DbFacts report_generator QueryFacts TextFacts GroupFacts PercentFacts MonthFacts WeekFacts SortFacts StoreFacts StoreFacts2 Spec.

#[local] Instance by_visit_date_total : Total by_visit_date.
Proof. intros a b. unfold by_visit_date. apply (total String.le). Qed.

#[local] Instance by_visit_date_trans : Transitive by_visit_date.
Proof. intros a b c. unfold by_visit_date. apply (transitivity (R := String.le)). Qed.







End QueryFacts2.

Module ErrorFacts.

Import Py PyFacts calendar_data CalFacts StrFacts database DbFacts report_generator QueryFacts TextFacts GroupFacts PercentFacts MonthFacts WeekFacts SortFacts StoreFacts StoreFacts2 Spec.

Lemma bind_Raise {A B} e (k : A -> result B) : (Raise e ≫= k) = Raise e.
Proof. reflexivity. Qed.












End ErrorFacts.

(** * The week numbers of the text report are those of calendar weeks *)

Module WeekNumberFacts.

Import Py PyFacts calendar_data CalFacts StrFacts database DbFacts report_generator QueryFacts TextFacts GroupFacts PercentFacts MonthFacts WeekFacts SortFacts StoreFacts StoreFacts2 Spec.














End WeekNumberFacts.

(** * Counting the rows of the month query in the table *)

Module CountFacts.

Import Py PyFacts calendar_data CalFacts StrFacts database DbFacts report_generator QueryFacts TextFacts GroupFacts PercentFacts MonthFacts WeekFacts SortFacts StoreFacts StoreFacts2 QueryFacts2 ErrorFacts WeekNumberFacts Spec.







End CountFacts.

(** * Further properties of the store *)

Module StoreProps.

Import Py PyFacts calendar_data CalFacts StrFacts database DbFacts report_generator QueryFacts TextFacts GroupFacts PercentFacts MonthFacts WeekFacts SortFacts StoreFacts StoreFacts2 QueryFacts2 ErrorFacts WeekNumberFacts CountFacts Spec.





End StoreProps.

(** * Further properties of the queries *)

Module QueryProps.

Import Py PyFacts calendar_data CalFacts StrFacts database DbFacts report_generator QueryFacts TextFacts GroupFacts PercentFacts MonthFacts WeekFacts SortFacts StoreFacts StoreFacts2 QueryFacts2 ErrorFacts WeekNumberFacts CountFacts StoreProps Spec.







End QueryProps.

(** * The week blocks of the text report *)

Module GroupProps.

Import Py PyFacts calendar_data CalFacts StrFacts database DbFacts report_generator QueryFacts TextFacts GroupFacts PercentFacts MonthFacts WeekFacts SortFacts StoreFacts StoreFacts2 QueryFacts2 ErrorFacts WeekNumberFacts CountFacts StoreProps QueryProps Spec.







End GroupProps.

(** * The calendar picture *)

Module ImageFacts.

Import Py PyFacts calendar_data CalFacts StrFacts database DbFacts report_generator report_image QueryFacts TextFacts GroupFacts PercentFacts MonthFacts WeekFacts SortFacts StoreFacts StoreFacts2 QueryFacts2 ErrorFacts WeekNumberFacts CountFacts StoreProps QueryProps GroupProps Spec.


Section month.

Variables (db : Database) (uid y m : Z).
Hypothesis Hok : month_ok y m.
Hypothesis Hu : unique_keys db.

Let fw := weekday (mkdate y m 1).
Let dim := days_in_month y m.
Let vd := visits_by_date (month_rows db uid y m).

Lemma dim_bounds : 28 <= dim <= 31.
Proof. apply days_in_month_bounds, Hok. Qed.








Lemma drawn_before_skip p : p < fw -> drawn_before y m (p + 1) = 0.
Proof. pose proof dim_bounds. unfold drawn_before, fw, dim in *. lia. Qed.





End month.







End ImageFacts.

(** * The handlers of the bot *)

Module BotFacts.

Import Py PyFacts calendar_data CalFacts StrFacts database DbFacts report_generator report_image bot QueryFacts TextFacts GroupFacts PercentFacts MonthFacts WeekFacts SortFacts StoreFacts StoreFacts2 QueryFacts2 ErrorFacts WeekNumberFacts CountFacts StoreProps QueryProps GroupProps ImageFacts Spec.

























End BotFacts.

(** * Further properties of the code *)

Module Extras.

Import Py PyFacts calendar_data CalFacts StrFacts database DbFacts report_generator report_image bot QueryFacts TextFacts GroupFacts PercentFacts MonthFacts WeekFacts SortFacts StoreFacts StoreFacts2 QueryFacts2 ErrorFacts WeekNumberFacts CountFacts StoreProps QueryProps GroupProps ImageFacts BotFacts Spec.








































End Extras.
